(** * apcupsd_exporter: the UPS collector (upscollector.go)

    A shallow embedding of [UPSCollector] and of its two operations,
    [Describe] and [Collect], together with the few library functions they
    call: [strings.Contains], [time.Time.IsZero], [time.Time.Unix],
    [time.Duration.Seconds], [prometheus.BuildFQName], [prometheus.NewDesc],
    [prometheus.MustNewConstMetric] with the checks it runs on the
    descriptor and on the label values, and [prometheus.NewInvalidMetric].

    Go strings are byte sequences and are modelled by [string]; [int],
    [int64] and [uint64] are modelled by [Z] with the wrap-around written
    out; [float64] is IEEE 754 binary64, modelled by [spec_float] at
    precision 53 and maximal exponent 1024. *)

From Stdlib Require Import ZArith Zpower List String Ascii Bool Lia.
From Stdlib Require Import Floats.SpecFloat.
Import ListNotations.

Local Open Scope string_scope.
Local Open Scope Z_scope.

(* ------------------------------------------------------------------ *)
(** ** float64 *)

Module Float64.

Definition float64 : Type := spec_float.

Definition prec : Z := 53.
Definition emax : Z := 1024.

(** The conversion [float64(n)] of an integer: round to nearest, ties to
    even. *)
Definition of_int (n : Z) : float64 := binary_normalize prec emax n 0 false.

Definition add (x y : float64) : float64 := SFadd prec emax x y.
Definition div (x y : float64) : float64 := SFdiv prec emax x y.

(** The integer a float denotes, when it denotes one. *)
Definition to_int (x : float64) : option Z :=
  match x with
  | S754_zero _ => Some 0
  | S754_finite sx m e =>
      match e with
      | Zneg p =>
          if Z.pos m mod Z.pow_pos 2 p =? 0
          then Some (cond_Zopp sx (Z.pos m / Z.pow_pos 2 p))
          else None
      | _ => Some (cond_Zopp sx (Z.pos m * 2 ^ e))
      end
  | _ => None
  end.

Definition eq_dec (x y : float64) : {x = y} + {x <> y}.
Proof.
  decide equality; solve [apply Bool.bool_dec | apply Z.eq_dec | apply Pos.eq_dec].
Defined.

End Float64.

(* ------------------------------------------------------------------ *)
(** ** package strings *)

Module strings.

(** [strings.HasPrefix(s, prefix)]. *)
Fixpoint HasPrefix (s prefix : string) {struct prefix} : bool :=
  match prefix, s with
  | EmptyString, _ => true
  | String _ _, EmptyString => false
  | String p prefix', String a s' => Ascii.eqb a p && HasPrefix s' prefix'
  end.

(** [strings.Index(s, substr)]: the index of the first instance of
    [substr] in [s], or -1 if [substr] is not present in [s]. *)
Fixpoint Index (s substr : string) : Z :=
  if HasPrefix s substr then 0
  else match s with
       | EmptyString => -1
       | String _ s' =>
           let i := Index s' substr in
           if i <? 0 then -1 else i + 1
       end.

(** [func Contains(s, substr string) bool { return Index(s, substr) >= 0 }] *)
Definition Contains (s substr : string) : bool := 0 <=? Index s substr.

(** [strings.Join(elems, sep)]. *)
Fixpoint Join (elems : list string) (sep : string) : string :=
  match elems with
  | [] => EmptyString
  | [e] => e
  | e :: rest => e ++ sep ++ Join rest sep
  end.

(** [substr] occurs somewhere inside [s]. *)
Definition Substring (substr s : string) : Prop :=
  exists pre post, s = pre ++ substr ++ post.

End strings.

(* ------------------------------------------------------------------ *)
(** ** package unicode/utf8 *)

Module utf8.

Definition inRange (lo hi x : N) : bool := ((lo <=? x) && (x <=? hi))%N.

(** The range of the second byte of a sequence, given its first byte. *)
Definition second (x y : N) : bool :=
  if (x =? 224)%N then inRange 160 191 y
  else if (x =? 237)%N then inRange 128 159 y
  else if (x =? 240)%N then inRange 144 191 y
  else if (x =? 244)%N then inRange 128 143 y
  else inRange 128 191 y.

(** [utf8.ValidString(s)] reports whether [s] consists entirely of valid
    UTF-8-encoded runes: one byte below 0x80; a lead of 0xC2..0xDF and
    one continuation byte; a lead of 0xE0..0xEF and two; a lead of
    0xF0..0xF4 and three; no overlong forms, no surrogates, nothing above
    U+10FFFF. *)
Fixpoint ValidString (s : string) : bool :=
  match s with
  | EmptyString => true
  | String a s1 =>
      let x := N_of_ascii a in
      if (x <? 128)%N then ValidString s1
      else
        match s1 with
        | EmptyString => false
        | String b s2 =>
            let y := N_of_ascii b in
            if inRange 194 223 x then inRange 128 191 y && ValidString s2
            else
              match s2 with
              | EmptyString => false
              | String c s3 =>
                  let z := N_of_ascii c in
                  if inRange 224 239 x
                  then second x y && inRange 128 191 z && ValidString s3
                  else
                    match s3 with
                    | EmptyString => false
                    | String d s4 =>
                        let u := N_of_ascii d in
                        inRange 240 244 x && second x y && inRange 128 191 z
                        && inRange 128 191 u && ValidString s4
                    end
              end
        end
  end.

End utf8.

(* ------------------------------------------------------------------ *)
(** ** package time *)

Module time.

Definition wrap_int64 (z : Z) : Z := (z + 2 ^ 63) mod 2 ^ 64 - 2 ^ 63.
Definition wrap_uint64 (z : Z) : Z := z mod 2 ^ 64.
Definition wrap_int32 (z : Z) : Z := (z + 2 ^ 31) mod 2 ^ 32 - 2 ^ 31.

(** A [Duration] is an [int64] count of nanoseconds. *)
Definition Duration : Type := Z.

Definition Nanosecond : Duration := 1.
Definition Microsecond : Duration := 1000 * Nanosecond.
Definition Millisecond : Duration := 1000 * Microsecond.
Definition Second : Duration := 1000 * Millisecond.

(** [[
    func (d Duration) Seconds() float64 {
        sec := d / Second
        nsec := d % Second
        return float64(sec) + float64(nsec)/1e9
    }
    ]]
    Go's [/] and [%] on integers truncate towards zero. *)
Definition Seconds (d : Duration) : Float64.float64 :=
  let sec := Z.quot d Second in
  let nsec := Z.rem d Second in
  Float64.add (Float64.of_int sec)
              (Float64.div (Float64.of_int nsec) (Float64.of_int 1000000000)).

(** A [Time]: [wall] is a [uint64], [ext] an [int64].  The location
    pointer plays no part in [IsZero] and [Unix] and is left out. *)
Record Time : Type := { wall : Z; ext : Z }.

Definition hasMonotonic : Z := Z.shiftl 1 63.
Definition nsecMask : Z := Z.shiftl 1 30 - 1.
Definition nsecShift : Z := 30.

Definition secondsPerDay : Z := 86400.
Definition unixToInternal : Z :=
  (1969 * 365 + 1969 / 4 - 1969 / 100 + 1969 / 400) * secondsPerDay.
Definition internalToUnix : Z := - unixToInternal.
Definition wallToInternal : Z :=
  (1884 * 365 + 1884 / 4 - 1884 / 100 + 1884 / 400) * secondsPerDay.

(** [func (t *Time) nsec() int32 { return int32(t.wall & nsecMask) }] *)
Definition nsec (t : Time) : Z := wrap_int32 (Z.land (wall t) nsecMask).

(** [[
    func (t *Time) sec() int64 {
        if t.wall&hasMonotonic != 0 {
            return wallToInternal + int64(t.wall<<1>>(nsecShift+1))
        }
        return t.ext
    }
    ]] *)
Definition sec (t : Time) : Z :=
  if negb (Z.land (wall t) hasMonotonic =? 0)
  then wrap_int64
         (wallToInternal
          + wrap_int64 (Z.shiftr (wrap_uint64 (Z.shiftl (wall t) 1)) (nsecShift + 1)))
  else ext t.

(** [func (t *Time) unixSec() int64 { return t.sec() + internalToUnix }] *)
Definition unixSec (t : Time) : Z := wrap_int64 (sec t + internalToUnix).

(** [func (t Time) IsZero() bool { return t.sec() == 0 && t.nsec() == 0 }] *)
Definition IsZero (t : Time) : bool := (sec t =? 0) && (nsec t =? 0).

(** [func (t Time) Unix() int64 { return t.unixSec() }] *)
Definition Unix (t : Time) : Z := unixSec t.

(** The zero value [time.Time{}]: January 1, year 1, 00:00:00 UTC. *)
Definition zeroTime : Time := {| wall := 0; ext := 0 |}.

(** [[
    func Unix(sec int64, nsec int64) Time
    ]]
    for [0 <= nsec < 1e9], the case without the carry into [sec]. *)
Definition unixTime (sec nsec : Z) : Time :=
  {| wall := wrap_uint64 nsec; ext := wrap_int64 (sec + unixToInternal) |}.

End time.

(* ------------------------------------------------------------------ *)
(** ** Go's [error], channels, the logger and panics *)

(** An [error] value, identified by what its [Error()] method returns. *)
Record error : Type := { Error : string }.

(** The errors of the prometheus client library that can come up under
    [Collect], told apart by the check that raises them and by the value
    that failed it.  Their texts differ between versions of the library
    and are not modelled. *)
Inductive libraryError : Type :=
| invalidMetricName (name : string)
| invalidLabelName (name : string)
| duplicateLabelNames
| inconsistentCardinality
| invalidLabelValue (value : string).

(** What a panic carries: the run-time error of a nil pointer dereference,
    or the error a [Must] function of the library was handed. *)
Inductive panicValue : Type :=
| nilDereference
| libraryPanic (e : libraryError).

Module Go.

Inductive outcome (A : Type) : Type :=
| Returned (a : A)
| Panicked (e : panicValue).
Arguments Returned {A} a.
Arguments Panicked {A} e.

(** What a method of the collector can touch: the status source behind
    [c.ss], the channel it was handed and the standard logger. *)
Record world (S T : Type) : Type :=
  { source : S; channel : list T; logger : list string }.
Arguments source {S T} w.
Arguments channel {S T} w.
Arguments logger {S T} w.

Definition t (S T A : Type) : Type := world S T -> outcome A * world S T.

Definition ret {S T A} (a : A) : t S T A := fun w => (Returned a, w).

Definition bind {S T A B} (m : t S T A) (k : A -> t S T B) : t S T B :=
  fun w =>
    match m w with
    | (Returned a, w') => k a w'
    | (Panicked e, w') => (Panicked e, w')
    end.

(** [ch <- x] *)
Definition send {S T} (x : T) : t S T unit :=
  fun w =>
    (Returned tt,
     {| source := source w; channel := channel w ++ [x]; logger := logger w |}).

(** [log.Printf(...)], given the formatted message. *)
Definition logPrint {S T} (msg : string) : t S T unit :=
  fun w =>
    (Returned tt,
     {| source := source w; channel := channel w; logger := logger w ++ [msg] |}).

(** [panic(v)] *)
Definition panic {S T A} (e : panicValue) : t S T A := fun w => (Panicked e, w).

(** Reading through a pointer: [p.f] panics when [p] is nil. *)
Definition deref {S T A} (p : option A) : t S T A :=
  match p with
  | Some a => ret a
  | None => panic nilDereference
  end.

(** [for _, x := range xs { body }] *)
Fixpoint forRange {S T X} (xs : list X) (body : X -> t S T unit) : t S T unit :=
  match xs with
  | [] => ret tt
  | x :: xs' => bind (body x) (fun _ => forRange xs' body)
  end.

Definition start {S T} (src : S) : world S T :=
  {| source := src; channel := []; logger := [] |}.

End Go.

Declare Scope go_scope.
Delimit Scope go_scope with go.
Notation "x <- m ;; k" := (Go.bind m (fun x => k))
  (at level 61, m at next level, right associativity) : go_scope.
Notation "m ;; k" := (Go.bind m (fun _ => k))
  (at level 61, right associativity) : go_scope.

(* ------------------------------------------------------------------ *)
(** ** package prometheus *)

Module prometheus.

(** [BuildFQName] joins the given three name components by an underscore;
    empty name components are ignored, and if the name parameter itself is
    empty, an empty string is returned, no matter what:
    [[
    func BuildFQName(namespace, subsystem, name string) string {
        if name == EMPTY { return EMPTY }
        switch {
        case namespace != EMPTY && subsystem != EMPTY:
            return strings.Join([]string{namespace, subsystem, name}, UNDERSCORE)
        case namespace != EMPTY:
            return strings.Join([]string{namespace, name}, UNDERSCORE)
        case subsystem != EMPTY:
            return strings.Join([]string{subsystem, name}, UNDERSCORE)
        }
        return name
    }
    ]] *)
Definition BuildFQName (namespace subsystem name : string) : string :=
  if String.eqb name EmptyString then EmptyString
  else if negb (String.eqb namespace EmptyString) && negb (String.eqb subsystem EmptyString)
       then strings.Join [namespace; subsystem; name] "_"
  else if negb (String.eqb namespace EmptyString)
       then strings.Join [namespace; name] "_"
  else if negb (String.eqb subsystem EmptyString)
       then strings.Join [subsystem; name] "_"
  else name.

(** A descriptor: the fully qualified name, the help text, the names of
    the variable labels and the error [NewDesc] recorded, if any.  The
    collector passes [nil] for the constant labels everywhere. *)
Record Desc : Type :=
  { fqName : string; help : string; variableLabels : list string;
    err : option libraryError }.

Definition isLetter (x : N) : bool :=
  utf8.inRange 97 122 x || utf8.inRange 65 90 x.

Definition isDigit (x : N) : bool := utf8.inRange 48 57 x.

(** The characters of a metric name: letters, the underscore, the colon
    and, after the first character, digits. *)
Definition isValidMetricRune (first : bool) (a : ascii) : bool :=
  let x := N_of_ascii a in
  isLetter x || (x =? 95)%N || (x =? 58)%N || (isDigit x && negb first).

(** [model.IsValidMetricName]: the name is not empty and matches
    [[a-zA-Z_:][a-zA-Z0-9_:]*], the rule of the Prometheus data model. *)
Definition IsValidMetricName (n : string) : bool :=
  match n with
  | EmptyString => false
  | String a rest =>
      isValidMetricRune true a
      && forallb (isValidMetricRune false) (list_ascii_of_string rest)
  end.

(** The characters of a label name: as for a metric name, but no colon. *)
Definition isValidLabelRune (first : bool) (a : ascii) : bool :=
  let x := N_of_ascii a in
  isLetter x || (x =? 95)%N || (isDigit x && negb first).

(** [checkLabelName]: the label name is valid ([[a-zA-Z_][a-zA-Z0-9_]*])
    and does not start with the reserved prefix of two underscores. *)
Definition checkLabelName (l : string) : bool :=
  match l with
  | EmptyString => false
  | String a rest =>
      isValidLabelRune true a
      && forallb (isValidLabelRune false) (list_ascii_of_string rest)
  end
  && negb (strings.HasPrefix l "__").

(** Whether some name occurs twice. *)
Fixpoint hasDuplicates (names : list string) : bool :=
  match names with
  | [] => false
  | n :: rest => existsb (String.eqb n) rest || hasDuplicates rest
  end.

(** The first string of the list that fails a check. *)
Fixpoint firstFailing (check : string -> bool) (vals : list string)
  : option string :=
  match vals with
  | [] => None
  | v :: rest => if check v then firstFailing check rest else Some v
  end.

(** [NewDesc] allocates and initializes a new descriptor.  Errors are
    recorded in the descriptor and come up when it is used: the name must
    be a valid metric name, every variable label name must be valid, and
    no label name may occur twice.  With the [nil] constant labels of the
    collector nothing else is checked. *)
Definition NewDesc (fqName help : string) (variableLabels : list string) : Desc :=
  {| fqName := fqName; help := help; variableLabels := variableLabels;
     err :=
       if negb (IsValidMetricName fqName) then Some (invalidMetricName fqName)
       else
         match firstFailing checkLabelName variableLabels with
         | Some l => Some (invalidLabelName l)
         | None =>
             if hasDuplicates variableLabels then Some duplicateLabelNames
             else None
         end |}.

Inductive ValueType : Type := CounterValue | GaugeValue | UntypedValue.

(** What travels on the metric channel: a constant metric, or the
    invalid metric that reports an error at collection time. *)
Inductive Metric : Type :=
| constMetric (desc : Desc) (valType : ValueType) (val : Float64.float64)
              (labelValues : list string)
| invalidMetric (desc : Desc) (err : error).

(** [validateLabelValues]: the number of values must be the expected one,
    and every value must be valid UTF-8. *)
Definition validateLabelValues (vals : list string) (expectedNumberOfValues : nat)
  : option libraryError :=
  if negb (Nat.eqb (List.length vals) expectedNumberOfValues)
  then Some inconsistentCardinality
  else
    match firstFailing utf8.ValidString vals with
    | Some v => Some (invalidLabelValue v)
    | None => None
    end.

(** [NewConstMetric] returns an error if the descriptor is invalid, if the
    length of [labelValues] is not consistent with the variable labels in
    [desc], or if a label value is not valid UTF-8. *)
Definition NewConstMetric (desc : Desc) (valueType : ValueType)
    (value : Float64.float64) (labelValues : list string)
  : Metric + libraryError :=
  match err desc with
  | Some e => inr e
  | None =>
      match validateLabelValues labelValues (List.length (variableLabels desc)) with
      | Some e => inr e
      | None => inl (constMetric desc valueType value labelValues)
      end
  end.

(** [MustNewConstMetric] is [NewConstMetric] that panics on an error. *)
Definition MustNewConstMetric {S T} (desc : Desc) (valueType : ValueType)
    (value : Float64.float64) (labelValues : list string) : Go.t S T Metric :=
  match NewConstMetric desc valueType value labelValues with
  | inl m => Go.ret m
  | inr e => Go.panic (libraryPanic e)
  end.

Definition NewInvalidMetric (desc : Desc) (err : error) : Metric :=
  invalidMetric desc err.

(** Accessors, written [m.Desc()] and the like on the Go side. *)
Definition metricDesc (m : Metric) : Desc :=
  match m with
  | constMetric d _ _ _ => d
  | invalidMetric d _ => d
  end.

Definition metricValue (m : Metric) : option Float64.float64 :=
  match m with
  | constMetric _ _ v _ => Some v
  | invalidMetric _ _ => None
  end.


Definition metricLabelValues (m : Metric) : list string :=
  match m with
  | constMetric _ _ _ l => l
  | invalidMetric _ _ => []
  end.

(** The label pairs of a sample, name against value, in the order of the
    descriptor's variable labels. *)
Definition metricLabels (m : Metric) : list (string * string) :=
  combine (variableLabels (metricDesc m)) (metricLabelValues m).

Definition metricErr (m : Metric) : option error :=
  match m with
  | constMetric _ _ _ _ => None
  | invalidMetric _ e => Some e
  end.

Definition libraryError_eq_dec (a b : libraryError) : {a = b} + {a <> b}.
Proof. decide equality; apply string_dec. Defined.

Definition Desc_eqb (a b : Desc) : bool :=
  String.eqb (fqName a) (fqName b)
  && String.eqb (help a) (help b)
  && (if list_eq_dec string_dec (variableLabels a) (variableLabels b)
      then true else false)
  && match err a, err b with
     | None, None => true
     | Some x, Some y => if libraryError_eq_dec x y then true else false
     | _, _ => false
     end.

End prometheus.

(* ------------------------------------------------------------------ *)
(** ** package apcupsd *)

Module apcupsd.

(** The fields of [apcupsd.Status] that the collector reads. *)
Record Status : Type :=
  { Hostname : string;
    UPSName : string;
    Model : string;
    Status_ : string;
    LineVoltage : Float64.float64;
    LoadPercent : Float64.float64;
    BatteryChargePercent : Float64.float64;
    TimeLeft : time.Duration;
    BatteryVoltage : Float64.float64;
    NumberTransfers : Z;
    XOnBattery : time.Time;
    TimeOnBattery : time.Duration;
    CumulativeTimeOnBattery : time.Duration;
    XOffBattery : time.Time;
    LastSelftest : time.Time;
    NominalInputVoltage : Float64.float64;
    NominalBatteryVoltage : Float64.float64;
    NominalPower : Z;
    OutputVoltage : Float64.float64;
    InternalTemp : Float64.float64 }.

End apcupsd.

(* ------------------------------------------------------------------ *)
(** ** upscollector.go *)

(** A [StatusSource] is a type which can retrieve UPS status information
    from apcupsd.  The interface value carries the method; the state the
    method works on (a connection, a test double) lives in the world.  The
    method returns a pointer to a status and an error: a non-nil error is
    [inr err], whatever the pointer; with a nil error, [inl (Some s)] is a
    pointer to [s] and [inl None] the nil pointer. *)
Record StatusSource (S : Type) : Type :=
  { StatusSource_Status : S -> (option apcupsd.Status + error) * S }.
Arguments StatusSource_Status {S} _ _.

(** [c.ss.Status()] *)
Definition callStatus {S T} (ss : StatusSource S)
  : Go.t S T (option apcupsd.Status + error) :=
  fun w =>
    let '(r, src') := StatusSource_Status ss (Go.source w) in
    (Go.Returned r,
     {| Go.source := src'; Go.channel := Go.channel w; Go.logger := Go.logger w |}).

(** A [UPSCollector] is a Prometheus collector for metrics regarding an
    APC UPS.  Its descriptors are held as [NewDesc] returns them, which is
    never nil. *)
Record UPSCollector (S : Type) : Type :=
  { Info : prometheus.Desc;
    UPSLoadPercent : prometheus.Desc;
    BatteryChargePercent : prometheus.Desc;
    LineVolts : prometheus.Desc;
    LineNominalVolts : prometheus.Desc;
    OutputVolts : prometheus.Desc;
    BatteryVolts : prometheus.Desc;
    BatteryNominalVolts : prometheus.Desc;
    BatteryNumberTransfersTotal : prometheus.Desc;
    BatteryTimeLeftSeconds : prometheus.Desc;
    BatteryTimeOnSeconds : prometheus.Desc;
    BatteryCumulativeTimeOnSecondsTotal : prometheus.Desc;
    LastTransferOnBatteryTimeSeconds : prometheus.Desc;
    LastTransferOffBatteryTimeSeconds : prometheus.Desc;
    LastSelftestTimeSeconds : prometheus.Desc;
    NominalPowerWatts : prometheus.Desc;
    Status : prometheus.Desc;
    InternalTemperatureCelsius : prometheus.Desc;
    ss : StatusSource S }.
Arguments Info {S} _.
Arguments UPSLoadPercent {S} _.
Arguments BatteryChargePercent {S} _.
Arguments LineVolts {S} _.
Arguments LineNominalVolts {S} _.
Arguments OutputVolts {S} _.
Arguments BatteryVolts {S} _.
Arguments BatteryNominalVolts {S} _.
Arguments BatteryNumberTransfersTotal {S} _.
Arguments BatteryTimeLeftSeconds {S} _.
Arguments BatteryTimeOnSeconds {S} _.
Arguments BatteryCumulativeTimeOnSecondsTotal {S} _.
Arguments LastTransferOnBatteryTimeSeconds {S} _.
Arguments LastTransferOffBatteryTimeSeconds {S} _.
Arguments LastSelftestTimeSeconds {S} _.
Arguments NominalPowerWatts {S} _.
Arguments Status {S} _.
Arguments InternalTemperatureCelsius {S} _.
Arguments ss {S} _.

(** [NewUPSCollector] creates a new [UPSCollector].  The package constant
    [namespace] is declared in another file of the package; it is taken as
    a parameter here. *)
Definition NewUPSCollector {S} (namespace : string) (ss : StatusSource S)
  : UPSCollector S :=
  let labels := ["ups_name"; "hostname"; "model"] in
  {| Info := prometheus.NewDesc
       (prometheus.BuildFQName namespace EmptyString "info")
       "Metadata about a given UPS."
       ["ups_name"; "hostname"; "model"];
     Status := prometheus.NewDesc
       (prometheus.BuildFQName namespace EmptyString "status")
       "Current UPS status."
       ["ups_name"; "hostname"; "model"; "status"];
     UPSLoadPercent := prometheus.NewDesc
       (prometheus.BuildFQName namespace EmptyString "ups_load_percent")
       "Current UPS load percentage."
       labels;
     BatteryChargePercent := prometheus.NewDesc
       (prometheus.BuildFQName namespace EmptyString "battery_charge_percent")
       "Current UPS battery charge percentage."
       labels;
     LineVolts := prometheus.NewDesc
       (prometheus.BuildFQName namespace EmptyString "line_volts")
       "Current AC input line voltage."
       labels;
     LineNominalVolts := prometheus.NewDesc
       (prometheus.BuildFQName namespace EmptyString "line_nominal_volts")
       "Nominal AC input line voltage."
       labels;
     OutputVolts := prometheus.NewDesc
       (prometheus.BuildFQName namespace EmptyString "output_volts")
       "Current AC output voltage."
       labels;
     BatteryVolts := prometheus.NewDesc
       (prometheus.BuildFQName namespace EmptyString "battery_volts")
       "Current UPS battery voltage."
       labels;
     BatteryNominalVolts := prometheus.NewDesc
       (prometheus.BuildFQName namespace EmptyString "battery_nominal_volts")
       "Nominal UPS battery voltage."
       labels;
     BatteryNumberTransfersTotal := prometheus.NewDesc
       (prometheus.BuildFQName namespace EmptyString "battery_number_transfers_total")
       "Total number of transfers to UPS battery power."
       labels;
     BatteryTimeLeftSeconds := prometheus.NewDesc
       (prometheus.BuildFQName namespace EmptyString "battery_time_left_seconds")
       "Number of seconds remaining of UPS battery power."
       labels;
     BatteryTimeOnSeconds := prometheus.NewDesc
       (prometheus.BuildFQName namespace EmptyString "battery_time_on_seconds")
       "Number of seconds the UPS has been providing battery power due to an AC input line outage."
       labels;
     BatteryCumulativeTimeOnSecondsTotal := prometheus.NewDesc
       (prometheus.BuildFQName namespace EmptyString "battery_cumulative_time_on_seconds_total")
       "Total number of seconds the UPS has provided battery power due to AC input line outages."
       labels;
     LastTransferOnBatteryTimeSeconds := prometheus.NewDesc
       (prometheus.BuildFQName namespace EmptyString "last_transfer_on_battery_time_seconds")
       "UNIX timestamp of last transfer to battery since apcupsd startup."
       labels;
     LastTransferOffBatteryTimeSeconds := prometheus.NewDesc
       (prometheus.BuildFQName namespace EmptyString "last_transfer_off_battery_time_seconds")
       "UNIX timestamp of last transfer from battery since apcupsd startup."
       labels;
     LastSelftestTimeSeconds := prometheus.NewDesc
       (prometheus.BuildFQName namespace EmptyString "last_selftest_time_seconds")
       "UNIX timestamp of last selftest since apcupsd startup."
       labels;
     NominalPowerWatts := prometheus.NewDesc
       (prometheus.BuildFQName namespace EmptyString "nominal_power_watts")
       "Nominal power output in watts."
       labels;
     InternalTemperatureCelsius := prometheus.NewDesc
       (prometheus.BuildFQName namespace EmptyString "internal_temperature_celsius")
       "Internal temperature in °C."
       labels;
     ss := ss |}.

Local Open Scope go_scope.

(** [Describe] sends the descriptors of each metric over to the provided
    channel.  The corresponding metric values are sent separately. *)
Definition Describe {S} (c : UPSCollector S) : Go.t S prometheus.Desc unit :=
  let ds :=
    [ Info c;
      Status c;
      UPSLoadPercent c;
      BatteryChargePercent c;
      LineVolts c;
      LineNominalVolts c;
      OutputVolts c;
      BatteryVolts c;
      BatteryNominalVolts c;
      BatteryNumberTransfersTotal c;
      BatteryTimeLeftSeconds c;
      BatteryTimeOnSeconds c;
      BatteryCumulativeTimeOnSecondsTotal c;
      LastTransferOnBatteryTimeSeconds c;
      LastTransferOffBatteryTimeSeconds c;
      LastSelftestTimeSeconds c;
      NominalPowerWatts c;
      InternalTemperatureCelsius c ] in
  Go.forRange ds (fun d => Go.send d).

(** The status tokens [Collect] looks for, in the order of its slice
    literal. *)
Definition upsStatus : list string :=
  [ "CAL";           (* Calibration mode *)
    "TRIM";          (* Smart trim active *)
    "BOOST";         (* Smart boost active *)
    "ONLINE";        (* UPS is online *)
    "ONBATT";        (* UPS is on battery *)
    "OVERLOAD";      (* UPS is overloaded *)
    "LOWBATT";       (* UPS has a low battery *)
    "REPLACEBATT";   (* UPS battery needs to be replaced *)
    "NOBATT";        (* UPS has no battery *)
    "SLAVE";         (* UPS is a slave *)
    "SLAVEDOWN";     (* UPS is a slave and is down *)
    "COMMLOST";      (* Communication has been lost *)
    "SHUTTING DOWN"  (* UPS is shutting down *) ].

(** [[
    func timestamp(t time.Time) float64 {
        if t.IsZero() {
            return 0
        }
        return float64(t.Unix())
    }
    ]] *)
Definition timestamp (t : time.Time) : Float64.float64 :=
  if time.IsZero t then Float64.of_int 0
  else Float64.of_int (time.Unix t).

(** [ch <- prometheus.MustNewConstMetric(desc, valueType, value, labelValues...)] *)
Definition sendConstMetric {S} (desc : prometheus.Desc)
    (valueType : prometheus.ValueType) (value : Float64.float64)
    (labelValues : list string) : Go.t S prometheus.Metric unit :=
  m <- prometheus.MustNewConstMetric desc valueType value labelValues ;;
  Go.send m.

(** [Collect] sends the metric values for each metric created by the
    [UPSCollector] to the provided prometheus Metric channel.  Every read
    of a field of the status goes through the pointer the source
    returned. *)
Definition Collect {S} (c : UPSCollector S) : Go.t S prometheus.Metric unit :=
  r <- callStatus (ss c) ;;
  match r with
  | inr err =>
      Go.logPrint ("failed collecting UPS metrics: " ++ Error err) ;;
      Go.send (prometheus.NewInvalidMetric (Info c) err) ;;
      Go.ret tt
  | inl sp =>
      Go.forRange upsStatus (fun status =>
        let value := Float64.of_int 0 in
        s <- Go.deref sp ;;
        let value :=
          if strings.Contains (apcupsd.Status_ s) status
          then Float64.of_int 1 else value in
        sendConstMetric (Status c) prometheus.GaugeValue value
          [apcupsd.UPSName s; apcupsd.Hostname s; apcupsd.Model s; status]) ;;
      s <- Go.deref sp ;;
      sendConstMetric (Info c) prometheus.GaugeValue
        (Float64.of_int 1)
        [apcupsd.UPSName s; apcupsd.Hostname s; apcupsd.Model s] ;;
      s <- Go.deref sp ;;
      sendConstMetric (UPSLoadPercent c) prometheus.GaugeValue
        (apcupsd.LoadPercent s)
        [apcupsd.UPSName s; apcupsd.Hostname s; apcupsd.Model s] ;;
      s <- Go.deref sp ;;
      sendConstMetric (BatteryChargePercent c) prometheus.GaugeValue
        (apcupsd.BatteryChargePercent s)
        [apcupsd.UPSName s; apcupsd.Hostname s; apcupsd.Model s] ;;
      s <- Go.deref sp ;;
      sendConstMetric (LineVolts c) prometheus.GaugeValue
        (apcupsd.LineVoltage s)
        [apcupsd.UPSName s; apcupsd.Hostname s; apcupsd.Model s] ;;
      s <- Go.deref sp ;;
      sendConstMetric (LineNominalVolts c) prometheus.GaugeValue
        (apcupsd.NominalInputVoltage s)
        [apcupsd.UPSName s; apcupsd.Hostname s; apcupsd.Model s] ;;
      s <- Go.deref sp ;;
      sendConstMetric (OutputVolts c) prometheus.GaugeValue
        (apcupsd.OutputVoltage s)
        [apcupsd.UPSName s; apcupsd.Hostname s; apcupsd.Model s] ;;
      s <- Go.deref sp ;;
      sendConstMetric (BatteryVolts c) prometheus.GaugeValue
        (apcupsd.BatteryVoltage s)
        [apcupsd.UPSName s; apcupsd.Hostname s; apcupsd.Model s] ;;
      s <- Go.deref sp ;;
      sendConstMetric (BatteryNominalVolts c) prometheus.GaugeValue
        (apcupsd.NominalBatteryVoltage s)
        [apcupsd.UPSName s; apcupsd.Hostname s; apcupsd.Model s] ;;
      s <- Go.deref sp ;;
      sendConstMetric (BatteryNumberTransfersTotal c) prometheus.CounterValue
        (Float64.of_int (apcupsd.NumberTransfers s))
        [apcupsd.UPSName s; apcupsd.Hostname s; apcupsd.Model s] ;;
      s <- Go.deref sp ;;
      sendConstMetric (BatteryTimeLeftSeconds c) prometheus.GaugeValue
        (time.Seconds (apcupsd.TimeLeft s))
        [apcupsd.UPSName s; apcupsd.Hostname s; apcupsd.Model s] ;;
      s <- Go.deref sp ;;
      sendConstMetric (BatteryTimeOnSeconds c) prometheus.GaugeValue
        (time.Seconds (apcupsd.TimeOnBattery s))
        [apcupsd.UPSName s; apcupsd.Hostname s; apcupsd.Model s] ;;
      s <- Go.deref sp ;;
      sendConstMetric (BatteryCumulativeTimeOnSecondsTotal c) prometheus.CounterValue
        (time.Seconds (apcupsd.CumulativeTimeOnBattery s))
        [apcupsd.UPSName s; apcupsd.Hostname s; apcupsd.Model s] ;;
      s <- Go.deref sp ;;
      sendConstMetric (LastTransferOnBatteryTimeSeconds c) prometheus.GaugeValue
        (timestamp (apcupsd.XOnBattery s))
        [apcupsd.UPSName s; apcupsd.Hostname s; apcupsd.Model s] ;;
      s <- Go.deref sp ;;
      sendConstMetric (LastTransferOffBatteryTimeSeconds c) prometheus.GaugeValue
        (timestamp (apcupsd.XOffBattery s))
        [apcupsd.UPSName s; apcupsd.Hostname s; apcupsd.Model s] ;;
      s <- Go.deref sp ;;
      sendConstMetric (LastSelftestTimeSeconds c) prometheus.GaugeValue
        (timestamp (apcupsd.LastSelftest s))
        [apcupsd.UPSName s; apcupsd.Hostname s; apcupsd.Model s] ;;
      s <- Go.deref sp ;;
      sendConstMetric (NominalPowerWatts c) prometheus.GaugeValue
        (Float64.of_int (apcupsd.NominalPower s))
        [apcupsd.UPSName s; apcupsd.Hostname s; apcupsd.Model s] ;;
      s <- Go.deref sp ;;
      sendConstMetric (InternalTemperatureCelsius c) prometheus.GaugeValue
        (apcupsd.InternalTemp s)
        [apcupsd.UPSName s; apcupsd.Hostname s; apcupsd.Model s]
  end.

(** One scrape: [Collect] on a fresh channel, against a source in state
    [src]. *)
Definition scrape {S} (c : UPSCollector S) (src : S)
  : Go.outcome unit * Go.world S prometheus.Metric :=
  Collect c (Go.start src).

(** What one scrape puts on the channel. *)
Definition emitted {S} (c : UPSCollector S) (src : S) : list prometheus.Metric :=
  Go.channel (snd (scrape c src)).

(** What [Describe] puts on a fresh channel. *)
Definition described {S} (c : UPSCollector S) (src : S) : list prometheus.Desc :=
  Go.channel (snd (Describe c (Go.start src))).

(** A status source that answers every call with the same result and
    counts the calls. *)
Definition fixedSource (r : option apcupsd.Status + error) : StatusSource nat :=
  {| StatusSource_Status := fun calls => (r, Datatypes.S calls) |}.

(** ** Reading a scrape *)

(** The samples of a scrape that were sent against descriptor [d]. *)
Definition samplesOf (d : prometheus.Desc) (ms : list prometheus.Metric)
  : list prometheus.Metric :=
  filter (fun m => prometheus.Desc_eqb (prometheus.metricDesc m) d) ms.

(** The flag a sample of the status family names: its fourth label value. *)
Definition flagOf (m : prometheus.Metric) : option string :=
  nth_error (prometheus.metricLabelValues m) 3.

(** The samples of the status family [d] that name the flag [tok]. *)
Definition indicatorsOf (d : prometheus.Desc) (tok : string)
    (ms : list prometheus.Metric) : list prometheus.Metric :=
  filter (fun m => match flagOf m with
                   | Some l => String.eqb l tok
                   | None => false
                   end) (samplesOf d ms).


(** The float64 sum of the values of a list of samples, left to right. *)
Definition sumValues (ms : list prometheus.Metric) : Float64.float64 :=
  fold_left (fun acc m => match prometheus.metricValue m with
                          | Some v => Float64.add acc v
                          | None => acc
                          end) ms (Float64.of_int 0).

(** The tokens of the vocabulary that occur in a status string. *)
Definition matchedTokens (status : string) : list string :=
  filter (strings.Contains status) upsStatus.

(** The three label values that identify the device. *)
Definition deviceLabels (s : apcupsd.Status) : list string :=
  [apcupsd.UPSName s; apcupsd.Hostname s; apcupsd.Model s].

(** The device name, the hostname and the model of the snapshot are valid
    UTF-8, as the library wants its label values. *)
Definition labelsValid (s : apcupsd.Status) : bool :=
  forallb utf8.ValidString (deviceLabels s).

(** The namespace makes valid metric names: it is empty, or a valid metric
    name itself. *)
Definition namespaceValid (ns : string) : bool :=
  String.eqb ns EmptyString || prometheus.IsValidMetricName ns.

(** ** Test data *)

(** A snapshot with a given status string: a Back-UPS at full charge and
    a load of 12.5 percent that went on battery once and came back. *)
Definition exampleStatus (status : string) : apcupsd.Status :=
  {| apcupsd.Hostname := "example";
     apcupsd.UPSName := "ups";
     apcupsd.Model := "Back-UPS ES 650G2";
     apcupsd.Status_ := status;
     apcupsd.LineVoltage := Float64.of_int 230;
     apcupsd.LoadPercent := Float64.div (Float64.of_int 25) (Float64.of_int 2);
     apcupsd.BatteryChargePercent := Float64.of_int 100;
     apcupsd.TimeLeft := 90 * time.Second;
     apcupsd.BatteryVoltage := Float64.div (Float64.of_int 27) (Float64.of_int 2);
     apcupsd.NumberTransfers := 1;
     apcupsd.XOnBattery := time.unixTime 1700000000 0;
     apcupsd.TimeOnBattery := 0;
     apcupsd.CumulativeTimeOnBattery := 1500 * time.Millisecond;
     apcupsd.XOffBattery := time.unixTime 1700000002 500000000;
     apcupsd.LastSelftest := time.zeroTime;
     apcupsd.NominalInputVoltage := Float64.of_int 230;
     apcupsd.NominalBatteryVoltage := Float64.of_int 12;
     apcupsd.NominalPower := 390;
     apcupsd.OutputVoltage := Float64.of_int 230;
     apcupsd.InternalTemp := Float64.of_int 26 |}.

(** A collector over a source that always answers with [exampleStatus]. *)
Definition exampleCollector (status : string) : UPSCollector nat :=
  NewUPSCollector "apcupsd" (fixedSource (inl (Some (exampleStatus status)))).

(** The same snapshot under a device name that is not valid UTF-8: the
    single byte 0xFF. *)
Definition garbledStatus (status : string) : apcupsd.Status :=
  let s := exampleStatus status in
  {| apcupsd.Hostname := apcupsd.Hostname s;
     apcupsd.UPSName := String "255"%char EmptyString;
     apcupsd.Model := apcupsd.Model s;
     apcupsd.Status_ := apcupsd.Status_ s;
     apcupsd.LineVoltage := apcupsd.LineVoltage s;
     apcupsd.LoadPercent := apcupsd.LoadPercent s;
     apcupsd.BatteryChargePercent := apcupsd.BatteryChargePercent s;
     apcupsd.TimeLeft := apcupsd.TimeLeft s;
     apcupsd.BatteryVoltage := apcupsd.BatteryVoltage s;
     apcupsd.NumberTransfers := apcupsd.NumberTransfers s;
     apcupsd.XOnBattery := apcupsd.XOnBattery s;
     apcupsd.TimeOnBattery := apcupsd.TimeOnBattery s;
     apcupsd.CumulativeTimeOnBattery := apcupsd.CumulativeTimeOnBattery s;
     apcupsd.XOffBattery := apcupsd.XOffBattery s;
     apcupsd.LastSelftest := apcupsd.LastSelftest s;
     apcupsd.NominalInputVoltage := apcupsd.NominalInputVoltage s;
     apcupsd.NominalBatteryVoltage := apcupsd.NominalBatteryVoltage s;
     apcupsd.NominalPower := apcupsd.NominalPower s;
     apcupsd.OutputVoltage := apcupsd.OutputVoltage s;
     apcupsd.InternalTemp := apcupsd.InternalTemp s |}.

Definition garbledCollector (status : string) : UPSCollector nat :=
  NewUPSCollector "apcupsd" (fixedSource (inl (Some (garbledStatus status)))).

(** The same snapshot with a last transfer to battery 2^53 + 1 seconds
    after the epoch. *)
Definition lateStatus (status : string) : apcupsd.Status :=
  let s := exampleStatus status in
  {| apcupsd.Hostname := apcupsd.Hostname s;
     apcupsd.UPSName := apcupsd.UPSName s;
     apcupsd.Model := apcupsd.Model s;
     apcupsd.Status_ := apcupsd.Status_ s;
     apcupsd.LineVoltage := apcupsd.LineVoltage s;
     apcupsd.LoadPercent := apcupsd.LoadPercent s;
     apcupsd.BatteryChargePercent := apcupsd.BatteryChargePercent s;
     apcupsd.TimeLeft := apcupsd.TimeLeft s;
     apcupsd.BatteryVoltage := apcupsd.BatteryVoltage s;
     apcupsd.NumberTransfers := apcupsd.NumberTransfers s;
     apcupsd.XOnBattery := time.unixTime (2 ^ 53 + 1) 0;
     apcupsd.TimeOnBattery := apcupsd.TimeOnBattery s;
     apcupsd.CumulativeTimeOnBattery := apcupsd.CumulativeTimeOnBattery s;
     apcupsd.XOffBattery := apcupsd.XOffBattery s;
     apcupsd.LastSelftest := apcupsd.LastSelftest s;
     apcupsd.NominalInputVoltage := apcupsd.NominalInputVoltage s;
     apcupsd.NominalBatteryVoltage := apcupsd.NominalBatteryVoltage s;
     apcupsd.NominalPower := apcupsd.NominalPower s;
     apcupsd.OutputVoltage := apcupsd.OutputVoltage s;
     apcupsd.InternalTemp := apcupsd.InternalTemp s |}.

Definition lateCollector (status : string) : UPSCollector nat :=
  NewUPSCollector "apcupsd" (fixedSource (inl (Some (lateStatus status)))).

(** A collector over a source that answers with a nil status and a nil
    error. *)
Definition nilCollector : UPSCollector nat :=
  NewUPSCollector "apcupsd" (fixedSource (inl None)).

(** A collector over a source that always fails. *)
Definition failingCollector (msg : string) : UPSCollector nat :=
  NewUPSCollector "apcupsd" (fixedSource (inr {| Error := msg |})).

(** ** Further vocabulary for reading scrapes *)

(** The names [NewUPSCollector] hands to [BuildFQName], in the order of
    [Describe]. *)
Definition metricSuffixes : list string :=
  [ "info"; "status"; "ups_load_percent"; "battery_charge_percent";
    "line_volts"; "line_nominal_volts"; "output_volts"; "battery_volts";
    "battery_nominal_volts"; "battery_number_transfers_total";
    "battery_time_left_seconds"; "battery_time_on_seconds";
    "battery_cumulative_time_on_seconds_total";
    "last_transfer_on_battery_time_seconds";
    "last_transfer_off_battery_time_seconds"; "last_selftest_time_seconds";
    "nominal_power_watts"; "internal_temperature_celsius" ].

(** What identifies a time series: the metric name and the label values. *)
Definition seriesOf (m : prometheus.Metric) : string * list string :=
  (prometheus.fqName (prometheus.metricDesc m), prometheus.metricLabelValues m).

(** The world after [ch <- x]. *)
Definition push {S T} (w : Go.world S T) (x : T) : Go.world S T :=
  {| Go.source := Go.source w; Go.channel := Go.channel w ++ [x];
     Go.logger := Go.logger w |}.

(** The tokens of [toks] picked by a mask, in order. *)
Fixpoint pick (mask : list bool) (toks : list string) : list string :=
  match mask, toks with
  | b :: mask', t :: toks' => if b then t :: pick mask' toks' else pick mask' toks'
  | _, _ => []
  end.

(** A status line as apcupsd prints it: flag tokens separated by single
    spaces. *)
Definition statusLine (flags : list string) : string := strings.Join flags " ".

(** All masks of a given length. *)
Fixpoint masks (n : nat) : list (list bool) :=
  match n with
  | O => [[]]
  | Datatypes.S n' => map (cons true) (masks n') ++ map (cons false) (masks n')
  end.

(** The tokens a status line made of [flags] sets: the flags themselves,
    and SLAVE along with SLAVEDOWN. *)
Definition flagSet (flags : list string) (tok : string) : bool :=
  existsb (String.eqb tok) flags
  || (String.eqb tok "SLAVE" && existsb (String.eqb "SLAVEDOWN") flags).

Definition lineCheck (mask : list bool) : bool :=
  forallb (fun tok =>
             Bool.eqb (strings.Contains (statusLine (pick mask upsStatus)) tok)
                      (flagSet (pick mask upsStatus) tok)) upsStatus.

(* ------------------------------------------------------------------ *)
(** * Properties *)

(** ** Substring search *)

Lemma HasPrefix_iff (s p : string) :
  strings.HasPrefix s p = true <-> exists post, s = p ++ post.
Proof.
  revert s; induction p as [|a p IH]; intros s; simpl.
  - split; [intros _; now exists s | reflexivity].
  - destruct s as [|b s].
    + split; [discriminate | intros [post H]; discriminate].
    + rewrite andb_true_iff, Ascii.eqb_eq, IH. split.
      * intros [-> [post ->]]. now exists post.
      * intros [post H]. injection H as -> ->. split; [reflexivity | now exists post].
Qed.

Lemma Index_lower (s sub : string) : -1 <= strings.Index s sub.
Proof.
  induction s as [|a s IH]; simpl.
  - destruct sub; simpl; lia.
  - destruct (strings.HasPrefix (String a s) sub); [lia|].
    destruct (Z.ltb_spec (strings.Index s sub) 0); lia.
Qed.

Lemma Contains_iff (s sub : string) :
  strings.Contains s sub = true <-> strings.Substring sub s.
Proof.
  unfold strings.Contains, strings.Substring. rewrite Z.leb_le. split.
  - induction s as [|a s IH]; simpl.
    + destruct (strings.HasPrefix EmptyString sub) eqn:E; [|lia].
      intros _. apply HasPrefix_iff in E. destruct E as [post E].
      now exists EmptyString, post.
    + destruct (strings.HasPrefix (String a s) sub) eqn:E.
      * intros _. apply HasPrefix_iff in E. destruct E as [post E].
        now exists EmptyString, post.
      * destruct (Z.ltb_spec (strings.Index s sub) 0); [lia|].
        intros _. destruct IH as [pre [post ->]]; [assumption|].
        now exists (String a pre), post.
  - intros [pre [post ->]]. induction pre as [|a pre IH].
    + assert (E : strings.HasPrefix (sub ++ post) sub = true)
        by (apply HasPrefix_iff; now exists post).
      change (EmptyString ++ sub ++ post) with (sub ++ post).
      destruct (sub ++ post); simpl; rewrite E; lia.
    + change (String a pre ++ sub ++ post) with (String a (pre ++ sub ++ post)).
      simpl. destruct (strings.HasPrefix (String a (pre ++ sub ++ post)) sub); [lia|].
      destruct (Z.ltb_spec (strings.Index (pre ++ sub ++ post) sub) 0); lia.
Qed.

(** ** Descriptors are told apart by their names *)

Lemma append_cancel_l (p a b : string) : p ++ a = p ++ b -> a = b.
Proof.
  induction p as [|c p IH]; simpl; [tauto|].
  intros H. injection H as H. auto.
Qed.

Lemma BuildFQName_inj (ns a b : string) :
  a <> EmptyString -> b <> EmptyString ->
  prometheus.BuildFQName ns EmptyString a = prometheus.BuildFQName ns EmptyString b ->
  a = b.
Proof.
  intros Ha Hb. unfold prometheus.BuildFQName.
  apply String.eqb_neq in Ha, Hb. rewrite Ha, Hb.
  destruct ns as [|c ns]; simpl; [tauto|].
  intros H. injection H as H. apply append_cancel_l in H.
  now injection H.
Qed.

Lemma BuildFQName_eqb (ns a b : string) :
  a <> EmptyString -> b <> EmptyString ->
  String.eqb (prometheus.BuildFQName ns EmptyString a)
             (prometheus.BuildFQName ns EmptyString b) = String.eqb a b.
Proof.
  intros Ha Hb. destruct (String.eqb_spec a b) as [->|N].
  - apply String.eqb_refl.
  - apply String.eqb_neq. intros H. apply N. eapply BuildFQName_inj; eauto.
Qed.

Lemma Desc_eqb_eq (a b : prometheus.Desc) :
  prometheus.Desc_eqb a b = true <-> a = b.
Proof.
  unfold prometheus.Desc_eqb.
  destruct a as [n1 h1 l1 e1], b as [n2 h2 l2 e2]; cbn [prometheus.fqName
    prometheus.help prometheus.variableLabels prometheus.err].
  rewrite !andb_true_iff, !String.eqb_eq. split.
  - intros [[[-> ->] L] E].
    destruct (list_eq_dec string_dec l1 l2) as [->|]; [|discriminate].
    destruct e1 as [x|], e2 as [y|]; try discriminate; [|reflexivity].
    destruct (prometheus.libraryError_eq_dec x y) as [->|]; [reflexivity|discriminate].
  - intros E. injection E as -> -> -> ->.
    destruct (list_eq_dec string_dec l2 l2); [|contradiction].
    destruct e2 as [y|]; [|auto].
    destruct (prometheus.libraryError_eq_dec y y); [auto|contradiction].
Qed.

Lemma Desc_eqb_refl (a : prometheus.Desc) : prometheus.Desc_eqb a a = true.
Proof. now apply Desc_eqb_eq. Qed.

Lemma Desc_eqb_built (ns a b h1 h2 : string) (l1 l2 : list string) :
  a <> EmptyString -> b <> EmptyString ->
  prometheus.Desc_eqb
    (prometheus.NewDesc (prometheus.BuildFQName ns EmptyString a) h1 l1)
    (prometheus.NewDesc (prometheus.BuildFQName ns EmptyString b) h2 l2)
  = String.eqb a b && String.eqb h1 h2
    && (if list_eq_dec string_dec l1 l2 then true else false).
Proof.
  intros Ha Hb.
  destruct (String.eqb a b && String.eqb h1 h2
            && (if list_eq_dec string_dec l1 l2 then true else false)) eqn:E.
  - rewrite !andb_true_iff, !String.eqb_eq in E. destruct E as [[-> ->] L].
    destruct (list_eq_dec string_dec l1 l2) as [->|]; [|discriminate].
    apply Desc_eqb_refl.
  - unfold prometheus.Desc_eqb, prometheus.NewDesc.
    cbn [prometheus.fqName prometheus.help prometheus.variableLabels].
    rewrite BuildFQName_eqb by assumption.
    rewrite !andb_false_iff in E. destruct E as [[E|E]|E]; rewrite E;
      rewrite ?andb_false_r; reflexivity.
Qed.

(** ** When the library accepts a descriptor and its label values *)

Lemma list_ascii_app (a b : string) :
  list_ascii_of_string (a ++ b)
  = (list_ascii_of_string a ++ list_ascii_of_string b)%list.
Proof. induction a as [|x a IH]; simpl; [reflexivity | now rewrite IH]. Qed.

Lemma metric_rune_later (a : ascii) :
  prometheus.isValidMetricRune true a = true ->
  prometheus.isValidMetricRune false a = true.
Proof.
  unfold prometheus.isValidMetricRune. cbv zeta.
  destruct (prometheus.isLetter (N_of_ascii a)); [reflexivity|].
  destruct (N_of_ascii a =? 95)%N; [reflexivity|].
  destruct (N_of_ascii a =? 58)%N; [reflexivity|].
  rewrite andb_false_r. discriminate.
Qed.

Lemma valid_name_runes (n : string) :
  prometheus.IsValidMetricName n = true ->
  forallb (prometheus.isValidMetricRune false) (list_ascii_of_string n) = true.
Proof.
  destruct n as [|a n]; [discriminate|]. unfold prometheus.IsValidMetricName.
  rewrite andb_true_iff. intros [Ha Hn]. cbn [list_ascii_of_string forallb].
  now rewrite (metric_rune_later a Ha), Hn.
Qed.

(** A name built under a namespace is valid exactly when the namespace
    is. *)
Lemma IsValidMetricName_built (ns suffix : string) :
  prometheus.IsValidMetricName suffix = true ->
  prometheus.IsValidMetricName (prometheus.BuildFQName ns EmptyString suffix)
  = namespaceValid ns.
Proof.
  intros Hs. unfold prometheus.BuildFQName, namespaceValid.
  assert (Hne : String.eqb suffix EmptyString = false)
    by (destruct suffix; [discriminate | reflexivity]).
  rewrite Hne. destruct ns as [|a ns]; [exact Hs|].
  cbn [String.eqb negb andb orb strings.Join].
  change (String a ns ++ "_" ++ suffix) with (String a (ns ++ "_" ++ suffix)).
  unfold prometheus.IsValidMetricName. f_equal.
  rewrite !list_ascii_app, !forallb_app, (valid_name_runes suffix Hs).
  cbn. now rewrite !andb_true_r.
Qed.

Lemma firstFailing_None (check : string -> bool) (vals : list string) :
  prometheus.firstFailing check vals = None <-> forallb check vals = true.
Proof.
  induction vals as [|v vals IH]; cbn; [tauto|].
  destruct (check v); cbn; [exact IH | split; discriminate].
Qed.

Lemma NewDesc_err (ns suffix h : string) (names : list string) :
  prometheus.IsValidMetricName suffix = true ->
  forallb prometheus.checkLabelName names = true ->
  prometheus.hasDuplicates names = false ->
  prometheus.err
    (prometheus.NewDesc (prometheus.BuildFQName ns EmptyString suffix) h names)
  = if namespaceValid ns then None
    else Some (invalidMetricName (prometheus.BuildFQName ns EmptyString suffix)).
Proof.
  intros Hs Hn Hd. unfold prometheus.NewDesc. cbn [prometheus.err].
  rewrite (IsValidMetricName_built ns suffix Hs).
  destruct (namespaceValid ns); cbn [negb]; [|reflexivity].
  apply firstFailing_None in Hn. now rewrite Hn, Hd.
Qed.

Lemma NewConstMetric_accepts (d : prometheus.Desc) (ty : prometheus.ValueType)
    (v : Float64.float64) (l : list string) :
  prometheus.err d = None ->
  List.length l = List.length (prometheus.variableLabels d) ->
  forallb utf8.ValidString l = true ->
  prometheus.NewConstMetric d ty v l = inl (prometheus.constMetric d ty v l).
Proof.
  intros He Hl Hv. unfold prometheus.NewConstMetric, prometheus.validateLabelValues.
  rewrite He, Hl, Nat.eqb_refl. cbn [negb].
  apply firstFailing_None in Hv. now rewrite Hv.
Qed.

Lemma NewConstMetric_rejects (d : prometheus.Desc) (ty : prometheus.ValueType)
    (v : Float64.float64) (l : list string) :
  prometheus.err d <> None \/ forallb utf8.ValidString l = false ->
  exists e, prometheus.NewConstMetric d ty v l = inr e.
Proof.
  intros H. unfold prometheus.NewConstMetric, prometheus.validateLabelValues.
  destruct (prometheus.err d) as [e|]; [now exists e|].
  destruct H as [H|H]; [contradiction|].
  destruct (negb _); [now eexists|].
  destruct (prometheus.firstFailing utf8.ValidString l) as [x|] eqn:F;
    [now eexists|].
  apply firstFailing_None in F. congruence.
Qed.

(** ** One statement of [Collect] after another *)

Lemma bind_assoc {S T A B C} (m : Go.t S T A) (f : A -> Go.t S T B)
    (g : B -> Go.t S T C) (w : Go.world S T) :
  Go.bind (Go.bind m f) g w = Go.bind m (fun a => Go.bind (f a) g) w.
Proof.
  unfold Go.bind. destruct (m w) as [[a|e] w']; reflexivity.
Qed.

Lemma bind_ret {S T A B} (a : A) (k : A -> Go.t S T B) (w : Go.world S T) :
  Go.bind (Go.ret a) k w = k a w.
Proof. reflexivity. Qed.

Lemma bind_deref {S T A B} (a : A) (k : A -> Go.t S T B) (w : Go.world S T) :
  Go.bind (Go.deref (Some a)) k w = k a w.
Proof. reflexivity. Qed.

Lemma bind_deref_nil {S T A B} (k : A -> Go.t S T B) (w : Go.world S T) :
  Go.bind (Go.deref None) k w = (Go.Panicked nilDereference, w).
Proof. reflexivity. Qed.

Lemma bind_callStatus {S T B} (st : StatusSource S)
    (k : option apcupsd.Status + error -> Go.t S T B) (w : Go.world S T) :
  Go.bind (callStatus st) k w
  = k (fst (StatusSource_Status st (Go.source w)))
      {| Go.source := snd (StatusSource_Status st (Go.source w));
         Go.channel := Go.channel w; Go.logger := Go.logger w |}.
Proof.
  unfold Go.bind, callStatus.
  destruct (StatusSource_Status st (Go.source w)); reflexivity.
Qed.

Lemma sendConstMetric_run {S} (d : prometheus.Desc) (ty : prometheus.ValueType)
    (v : Float64.float64) (l : list string) (w : Go.world S prometheus.Metric) :
  sendConstMetric d ty v l w =
  match prometheus.NewConstMetric d ty v l with
  | inl m => (Go.Returned tt, push w m)
  | inr e => (Go.Panicked (libraryPanic e), w)
  end.
Proof.
  unfold sendConstMetric, prometheus.MustNewConstMetric, Go.bind.
  destruct (prometheus.NewConstMetric d ty v l); reflexivity.
Qed.

(** A send against a descriptor of the collector goes through when the
    namespace and the label values are valid. *)
Lemma send_built {S} (ns suffix h : string) (names : list string)
    (ty : prometheus.ValueType) (v : Float64.float64) (l : list string)
    (w : Go.world S prometheus.Metric) :
  namespaceValid ns = true ->
  prometheus.IsValidMetricName suffix = true ->
  forallb prometheus.checkLabelName names = true ->
  prometheus.hasDuplicates names = false ->
  List.length l = List.length names ->
  forallb utf8.ValidString l = true ->
  sendConstMetric
    (prometheus.NewDesc (prometheus.BuildFQName ns EmptyString suffix) h names)
    ty v l w
  = (Go.Returned tt,
     push w (prometheus.constMetric
               (prometheus.NewDesc (prometheus.BuildFQName ns EmptyString suffix) h names)
               ty v l)).
Proof.
  intros Hns Hs Hn Hd Hl Hv. rewrite sendConstMetric_run.
  rewrite NewConstMetric_accepts; [reflexivity | | exact Hl | exact Hv].
  rewrite (NewDesc_err ns suffix h names Hs Hn Hd). now rewrite Hns.
Qed.

Lemma bind_send_built {S B} (ns suffix h : string) (names : list string)
    (ty : prometheus.ValueType) (v : Float64.float64) (l : list string)
    (k : unit -> Go.t S prometheus.Metric B) (w : Go.world S prometheus.Metric) :
  namespaceValid ns = true ->
  prometheus.IsValidMetricName suffix = true ->
  forallb prometheus.checkLabelName names = true ->
  prometheus.hasDuplicates names = false ->
  List.length l = List.length names ->
  forallb utf8.ValidString l = true ->
  Go.bind
    (sendConstMetric
       (prometheus.NewDesc (prometheus.BuildFQName ns EmptyString suffix) h names)
       ty v l) k w
  = k tt (push w (prometheus.constMetric
                    (prometheus.NewDesc (prometheus.BuildFQName ns EmptyString suffix) h names)
                    ty v l)).
Proof.
  intros Hns Hs Hn Hd Hl Hv. unfold Go.bind at 1.
  now rewrite (send_built ns suffix h names ty v l w Hns Hs Hn Hd Hl Hv).
Qed.

Lemma bind_send_rejected {S B} (d : prometheus.Desc) (ty : prometheus.ValueType)
    (v : Float64.float64) (l : list string) (e : libraryError)
    (k : unit -> Go.t S prometheus.Metric B) (w : Go.world S prometheus.Metric) :
  prometheus.NewConstMetric d ty v l = inr e ->
  Go.bind (sendConstMetric d ty v l) k w = (Go.Panicked (libraryPanic e), w).
Proof.
  intros E. unfold Go.bind at 1. now rewrite sendConstMetric_run, E.
Qed.

Lemma labelsValid_values (s : apcupsd.Status) :
  labelsValid s = true ->
  utf8.ValidString (apcupsd.UPSName s) = true
  /\ utf8.ValidString (apcupsd.Hostname s) = true
  /\ utf8.ValidString (apcupsd.Model s) = true.
Proof.
  unfold labelsValid, deviceLabels. cbn [forallb].
  rewrite !andb_true_iff. tauto.
Qed.

(** The projections of a freshly built collector, down to [NewDesc]. *)
Ltac expose_descs :=
  cbn [prometheus.metricDesc NewUPSCollector
       Info Status UPSLoadPercent BatteryChargePercent LineVolts
       LineNominalVolts OutputVolts BatteryVolts BatteryNominalVolts
       BatteryNumberTransfersTotal BatteryTimeLeftSeconds BatteryTimeOnSeconds
       BatteryCumulativeTimeOnSecondsTotal LastTransferOnBatteryTimeSeconds
       LastTransferOffBatteryTimeSeconds LastSelftestTimeSeconds
       NominalPowerWatts InternalTemperatureCelsius ss].

(** The start of a scrape, up to the answer [H] of the source. *)
Ltac fetch H :=
  unfold scrape, Collect;
  rewrite !bind_callStatus;
  cbn [Go.start Go.source Go.channel Go.logger];
  expose_descs;
  rewrite !H; cbn [fst snd];
  unfold upsStatus; cbn [Go.forRange].

(** ** One scrape, written out *)

Lemma scrape_failure {S} (ns : string) (st : StatusSource S) (src src' : S)
    (err : error) :
  StatusSource_Status st src = (inr err, src') ->
  scrape (NewUPSCollector ns st) src =
  (Go.Returned tt,
   {| Go.source := src';
      Go.channel := [prometheus.invalidMetric (Info (NewUPSCollector ns st)) err];
      Go.logger := ["failed collecting UPS metrics: " ++ Error err] |}).
Proof.
  intros H. unfold scrape, Collect, Go.bind, callStatus.
  cbn [Go.start Go.source ss NewUPSCollector]. rewrite H. reflexivity.
Qed.

(** A nil status with a nil error: the first read through the pointer
    panics, before anything is sent. *)
Lemma scrape_nil {S} (ns : string) (st : StatusSource S) (src src' : S) :
  StatusSource_Status st src = (inl None, src') ->
  scrape (NewUPSCollector ns st) src =
  (Go.Panicked nilDereference,
   {| Go.source := src'; Go.channel := []; Go.logger := [] |}).
Proof.
  intros H. fetch H.
  repeat (first [rewrite bind_assoc]; cbv beta).
  rewrite bind_deref_nil. reflexivity.
Qed.

(** An invalid namespace or an invalid label value: the first send
    panics, before anything is sent. *)
Lemma scrape_rejected {S} (ns : string) (st : StatusSource S) (src src' : S)
    (s : apcupsd.Status) :
  StatusSource_Status st src = (inl (Some s), src') ->
  namespaceValid ns && labelsValid s = false ->
  exists e,
    scrape (NewUPSCollector ns st) src =
    (Go.Panicked (libraryPanic e),
     {| Go.source := src'; Go.channel := []; Go.logger := [] |}).
Proof.
  intros H V. fetch H.
  repeat (first [rewrite bind_assoc]; cbv beta).
  rewrite bind_deref. cbv beta zeta.
  match goal with
  | |- context [Go.bind (sendConstMetric ?d ?ty ?v ?l) ?k ?w] =>
      destruct (NewConstMetric_rejects d ty v l) as [e E];
      [| exists e; now rewrite (bind_send_rejected d ty v l e k w E)]
  end.
  rewrite NewDesc_err by reflexivity.
  apply andb_false_iff in V. destruct V as [V|V].
  - left. rewrite V. discriminate.
  - right. unfold labelsValid, deviceLabels in V. cbn [forallb] in V |- *.
    destruct (utf8.ValidString (apcupsd.UPSName s)); [|reflexivity].
    destruct (utf8.ValidString (apcupsd.Hostname s)); [|reflexivity].
    destruct (utf8.ValidString (apcupsd.Model s)); [discriminate V | reflexivity].
Qed.
Lemma scrape_success {S} (ns : string) (st : StatusSource S) (src src' : S)
    (s : apcupsd.Status) :
  namespaceValid ns = true ->
  labelsValid s = true ->
  StatusSource_Status st src = (inl (Some s), src') ->
  let c := NewUPSCollector ns st in
  let G := prometheus.GaugeValue in
  let C := prometheus.CounterValue in
  let l := deviceLabels s in
  scrape c src =
  (Go.Returned tt,
   {| Go.source := src';
      Go.channel :=
        map (fun tok =>
               prometheus.constMetric (Status c) G
                 (if strings.Contains (apcupsd.Status_ s) tok
                  then Float64.of_int 1 else Float64.of_int 0)
                 (l ++ [tok])) upsStatus
        ++ [ prometheus.constMetric (Info c) G (Float64.of_int 1) l;
             prometheus.constMetric (UPSLoadPercent c) G (apcupsd.LoadPercent s) l;
             prometheus.constMetric (BatteryChargePercent c) G
               (apcupsd.BatteryChargePercent s) l;
             prometheus.constMetric (LineVolts c) G (apcupsd.LineVoltage s) l;
             prometheus.constMetric (LineNominalVolts c) G
               (apcupsd.NominalInputVoltage s) l;
             prometheus.constMetric (OutputVolts c) G (apcupsd.OutputVoltage s) l;
             prometheus.constMetric (BatteryVolts c) G (apcupsd.BatteryVoltage s) l;
             prometheus.constMetric (BatteryNominalVolts c) G
               (apcupsd.NominalBatteryVoltage s) l;
             prometheus.constMetric (BatteryNumberTransfersTotal c) C
               (Float64.of_int (apcupsd.NumberTransfers s)) l;
             prometheus.constMetric (BatteryTimeLeftSeconds c) G
               (time.Seconds (apcupsd.TimeLeft s)) l;
             prometheus.constMetric (BatteryTimeOnSeconds c) G
               (time.Seconds (apcupsd.TimeOnBattery s)) l;
             prometheus.constMetric (BatteryCumulativeTimeOnSecondsTotal c) C
               (time.Seconds (apcupsd.CumulativeTimeOnBattery s)) l;
             prometheus.constMetric (LastTransferOnBatteryTimeSeconds c) G
               (timestamp (apcupsd.XOnBattery s)) l;
             prometheus.constMetric (LastTransferOffBatteryTimeSeconds c) G
               (timestamp (apcupsd.XOffBattery s)) l;
             prometheus.constMetric (LastSelftestTimeSeconds c) G
               (timestamp (apcupsd.LastSelftest s)) l;
             prometheus.constMetric (NominalPowerWatts c) G
               (Float64.of_int (apcupsd.NominalPower s)) l;
             prometheus.constMetric (InternalTemperatureCelsius c) G
               (apcupsd.InternalTemp s) l ];
      Go.logger := [] |}).
Proof.
  intros Hns Hl H c G C l.
  destruct (labelsValid_values s Hl) as [HU [HH HM]].
  subst c. fetch H.
  repeat (first
            [ rewrite bind_assoc
            | rewrite bind_ret
            | rewrite bind_deref
            | rewrite bind_send_built
                by first [ exact Hns
                         | reflexivity
                         | cbn [forallb]; rewrite HU, HH, HM; reflexivity ]
            | rewrite send_built
                by first [ exact Hns
                         | reflexivity
                         | cbn [forallb]; rewrite HU, HH, HM; reflexivity ] ];
          cbv beta zeta).
  reflexivity.
Qed.

Lemma described_eq {S} (ns : string) (st : StatusSource S) (src : S) :
  let c := NewUPSCollector ns st in
  described c src =
  [ Info c; Status c; UPSLoadPercent c; BatteryChargePercent c; LineVolts c;
    LineNominalVolts c; OutputVolts c; BatteryVolts c; BatteryNominalVolts c;
    BatteryNumberTransfersTotal c; BatteryTimeLeftSeconds c;
    BatteryTimeOnSeconds c; BatteryCumulativeTimeOnSecondsTotal c;
    LastTransferOnBatteryTimeSeconds c; LastTransferOffBatteryTimeSeconds c;
    LastSelftestTimeSeconds c; NominalPowerWatts c;
    InternalTemperatureCelsius c ].
Proof. reflexivity. Qed.

(** ** Selecting samples by descriptor *)

Lemma filter_cons_app {A} (p : A -> bool) (x : A) (l : list A) :
  filter p (x :: l) = ((if p x then [x] else []) ++ filter p l)%list.
Proof. simpl. now destruct (p x). Qed.

(** Projections of a freshly built collector, down to record literals. *)
(** Evaluation that leaves the snapshot's values, the namespace and the
    descriptors alone. *)
Ltac crunch :=
  cbv -[prometheus.BuildFQName prometheus.NewDesc strings.Contains
        Float64.of_int Float64.add time.Seconds timestamp].

(** Replace the channel of a successful scrape by its contents. *)
Ltac scrape_ok Hns Hl H :=
  unfold emitted;
  rewrite (scrape_success _ _ _ _ _ Hns Hl H);
  cbn [snd Go.channel].

(** Decide every comparison of descriptors in a [samplesOf]. *)
Ltac select_samples :=
  unfold samplesOf;
  cbv [upsStatus map app deviceLabels];
  rewrite !filter_cons_app;
  expose_descs;
  rewrite !Desc_eqb_built by discriminate;
  crunch.

(** A scrape that is stopped by the library has sent nothing. *)
Lemma emitted_rejected {S} (ns : string) (st : StatusSource S) (src src' : S)
    (s : apcupsd.Status) :
  StatusSource_Status st src = (inl (Some s), src') ->
  namespaceValid ns && labelsValid s = false ->
  emitted (NewUPSCollector ns st) src = [].
Proof.
  intros H V. unfold emitted.
  destruct (scrape_rejected ns st src src' s H V) as [e ->]. reflexivity.
Qed.

Lemma samplesOf_Status {S} (ns : string) (st : StatusSource S) (src src' : S)
    (s : apcupsd.Status) :
  namespaceValid ns = true ->
  labelsValid s = true ->
  StatusSource_Status st src = (inl (Some s), src') ->
  let c := NewUPSCollector ns st in
  samplesOf (Status c) (emitted c src) =
  map (fun tok =>
         prometheus.constMetric (Status c) prometheus.GaugeValue
           (if strings.Contains (apcupsd.Status_ s) tok
            then Float64.of_int 1 else Float64.of_int 0)
           (deviceLabels s ++ [tok])) upsStatus.
Proof.
  intros Hns Hl H c. subst c. scrape_ok Hns Hl H. select_samples. reflexivity.
Qed.

(** ** Small sums of indicator values are exact *)

Lemma add_of_int_small (k : Z) :
  0 <= k < 13 ->
  Float64.add (Float64.of_int k) (Float64.of_int 1) = Float64.of_int (k + 1)
  /\ Float64.add (Float64.of_int k) (Float64.of_int 0) = Float64.of_int k.
Proof.
  intros Hk.
  assert (E : k = 0 \/ k = 1 \/ k = 2 \/ k = 3 \/ k = 4 \/ k = 5 \/ k = 6
              \/ k = 7 \/ k = 8 \/ k = 9 \/ k = 10 \/ k = 11 \/ k = 12) by lia.
  repeat (destruct E as [->|E]; [split; vm_compute; reflexivity|]).
  subst k; split; vm_compute; reflexivity.
Qed.

Lemma sum_indicators (d : prometheus.Desc) (ty : prometheus.ValueType)
    (f : string -> bool) (lbl : string -> list string) (toks : list string) :
  forall k : nat,
  (k + List.length toks <= 13)%nat ->
  fold_left (fun acc m => match prometheus.metricValue m with
                          | Some v => Float64.add acc v
                          | None => acc
                          end)
            (map (fun tok => prometheus.constMetric d ty
                               (if f tok then Float64.of_int 1 else Float64.of_int 0)
                               (lbl tok)) toks)
            (Float64.of_int (Z.of_nat k))
  = Float64.of_int (Z.of_nat (k + List.length (filter f toks))).
Proof.
  induction toks as [|tok toks IH]; intros k Hk; simpl in Hk;
    cbn [map fold_left filter List.length prometheus.metricValue].
  - now rewrite Nat.add_0_r.
  - destruct (add_of_int_small (Z.of_nat k)) as [H1 H0]; [lia|].
    destruct (f tok); cbn [List.length].
    + rewrite H1. replace (Z.of_nat k + 1) with (Z.of_nat (Datatypes.S k)) by lia.
      rewrite IH by lia. f_equal. f_equal. lia.
    + rewrite H0. apply IH. lia.
Qed.

Lemma indicatorsOf_token {S} (ns : string) (st : StatusSource S) (src src' : S)
    (s : apcupsd.Status) (tok : string) :
  namespaceValid ns = true ->
  labelsValid s = true ->
  StatusSource_Status st src = (inl (Some s), src') ->
  In tok upsStatus ->
  let c := NewUPSCollector ns st in
  indicatorsOf (Status c) tok (emitted c src) =
  [prometheus.constMetric (Status c) prometheus.GaugeValue
     (if strings.Contains (apcupsd.Status_ s) tok
      then Float64.of_int 1 else Float64.of_int 0)
     (deviceLabels s ++ [tok])].
Proof.
  intros Hns Hl H Hin c. unfold indicatorsOf. subst c.
  rewrite (samplesOf_Status ns st src src' s Hns Hl H).
  unfold upsStatus in Hin. simpl in Hin.
  repeat (destruct Hin as [<-|Hin]; [crunch; reflexivity|]).
  contradiction.
Qed.

(** Among the tokens of the vocabulary, the only one that occurs inside
    another is SLAVE, inside SLAVEDOWN. *)
Lemma Contains_vocabulary (A B : string) :
  In A upsStatus -> In B upsStatus ->
  strings.Contains B A
  = String.eqb A B || (String.eqb A "SLAVE" && String.eqb B "SLAVEDOWN").
Proof.
  unfold upsStatus. simpl. intros HA HB.
  repeat (destruct HA as [<-|HA];
          [repeat (destruct HB as [<-|HB]; [vm_compute; reflexivity|]);
           contradiction|]).
  contradiction.
Qed.

(** The descriptors of a collector are pairwise different. *)
Lemma described_NoDup {S} (ns : string) (st : StatusSource S) (src : S) :
  NoDup (described (NewUPSCollector ns st) src).
Proof.
  rewrite described_eq. cbv zeta.
  repeat (constructor;
          [ cbn [In]; intros Hin;
            repeat (destruct Hin as [Hin|Hin];
                    [ apply Desc_eqb_eq in Hin; revert Hin; expose_descs;
                      rewrite Desc_eqb_built by discriminate;
                      vm_compute; discriminate |]);
            contradiction |]).
  constructor.
Qed.

(** ** Conversions between integers and float64 *)

Lemma digits2_pos_bounds (m : positive) :
  2 ^ (Z.pos (digits2_pos m) - 1) <= Z.pos m < 2 ^ Z.pos (digits2_pos m).
Proof.
  induction m as [m IH|m IH|]; cbn [digits2_pos].
  - rewrite Pos2Z.inj_succ.
    replace (Z.succ (Z.pos (digits2_pos m)) - 1) with (Z.succ (Z.pos (digits2_pos m) - 1)) by lia.
    rewrite !Z.pow_succ_r by lia. lia.
  - rewrite Pos2Z.inj_succ.
    replace (Z.succ (Z.pos (digits2_pos m)) - 1) with (Z.succ (Z.pos (digits2_pos m) - 1)) by lia.
    rewrite !Z.pow_succ_r by lia. lia.
  - simpl. lia.
Qed.

Lemma digits2_pos_le_53 (m : positive) :
  Z.pos m < 2 ^ 53 -> Z.pos (digits2_pos m) <= 53.
Proof.
  intros H. destruct (digits2_pos_bounds m) as [L _].
  destruct (Z.le_gt_cases (Z.pos (digits2_pos m)) 53) as [|G]; [assumption|].
  exfalso. assert (2 ^ 53 <= 2 ^ (Z.pos (digits2_pos m) - 1))
    by (apply Z.pow_le_mono_r; lia). lia.
Qed.

Lemma iter_xO_value (m p : positive) :
  Z.pos (Pos.iter xO m p) = Z.pos m * Z.pow_pos 2 p.
Proof.
  change (Pos.iter xO m p) with (shift_pos p m).
  rewrite shift_pos_correct. lia.
Qed.

Lemma iter_xO_digits (m p : positive) :
  digits2_pos (Pos.iter xO m p) = (digits2_pos m + p)%positive.
Proof.
  induction p as [|p IH] using Pos.peano_ind.
  - simpl. lia.
  - rewrite Pos.iter_succ. cbn [digits2_pos]. rewrite IH. lia.
Qed.

Lemma binary_round_aux_exact (sx : bool) (mz : positive) (ez : Z) :
  Z.pos (digits2_pos mz) = 53 -> -1074 <= ez <= 971 ->
  binary_round_aux Float64.prec Float64.emax sx (Z.pos mz) ez loc_Exact
  = S754_finite sx mz ez.
Proof.
  intros Hd He.
  assert (F : fexp Float64.prec Float64.emax (Z.pos (digits2_pos mz) + ez) - ez = 0).
  { rewrite Hd. unfold fexp, emin, Float64.prec, Float64.emax. lia. }
  unfold binary_round_aux, shr_fexp. cbn [Zdigits2 shr_record_of_loc].
  rewrite F. cbn [shr shr_m loc_of_shr_record round_nearest_even Zdigits2 shr_record_of_loc].
  rewrite F. cbn [shr shr_m].
  replace (ez <=? Float64.emax - Float64.prec) with true; [reflexivity|].
  symmetry. apply Z.leb_le. unfold Float64.emax, Float64.prec. lia.
Qed.

Lemma binary_round_small (sx : bool) (m : positive) :
  Z.pos m < 2 ^ 53 ->
  exists mz ez,
    binary_round Float64.prec Float64.emax sx m 0 = S754_finite sx mz ez
    /\ -52 <= ez <= 0
    /\ Z.pos mz = Z.pos m * 2 ^ (- ez).
Proof.
  intros Hm. pose proof (digits2_pos_le_53 m Hm) as Hd.
  unfold binary_round.
  assert (F : fexp Float64.prec Float64.emax (Z.pos (digits2_pos m) + 0)
              = Z.pos (digits2_pos m) - 53).
  { unfold fexp, emin, Float64.prec, Float64.emax. lia. }
  rewrite F. unfold shl_align.
  destruct (Z.pos (digits2_pos m) - 53 - 0) as [|q|q] eqn:E.
  - exists m, 0. split; [|split; [lia | simpl; lia]].
    apply binary_round_aux_exact; lia.
  - lia.
  - exists (Pos.iter xO m q), (Z.pos (digits2_pos m) - 53).
    split; [|split; [lia|]].
    + apply binary_round_aux_exact; [|lia].
      rewrite iter_xO_digits. lia.
    + rewrite iter_xO_value.
      replace (- (Z.pos (digits2_pos m) - 53)) with (Z.pos q) by lia.
      reflexivity.
Qed.

Lemma of_int_exact (z : Z) :
  - 2 ^ 53 <= z <= 2 ^ 53 -> Float64.to_int (Float64.of_int z) = Some z.
Proof.
  intros Hz.
  assert (B : z = 2 ^ 53 \/ z = - 2 ^ 53 \/ - 2 ^ 53 < z < 2 ^ 53) by lia.
  destruct B as [->|[->|B]]; [vm_compute; reflexivity | vm_compute; reflexivity |].
  destruct z as [|m|m]; [reflexivity| |];
    unfold Float64.of_int, binary_normalize.
  - destruct (binary_round_small false m) as [mz [ez [-> [He Hv]]]]; [lia|].
    unfold Float64.to_int. destruct ez as [|q|q]; [| lia |].
    + simpl in Hv. cbn [cond_Zopp]. f_equal. simpl. lia.
    + change (- Z.neg q) with (Z.pos q) in Hv.
      rewrite Hv. rewrite Z.pow_pos_fold.
      rewrite Z.mod_mul by (apply Z.pow_nonzero; lia).
      cbn [Z.eqb]. rewrite Z.div_mul by (apply Z.pow_nonzero; lia).
      reflexivity.
  - destruct (binary_round_small true m) as [mz [ez [-> [He Hv]]]]; [lia|].
    unfold Float64.to_int. destruct ez as [|q|q]; [| lia |].
    + simpl in Hv. cbn [cond_Zopp]. f_equal. simpl. lia.
    + change (- Z.neg q) with (Z.pos q) in Hv.
      rewrite Hv. rewrite Z.pow_pos_fold.
      rewrite Z.mod_mul by (apply Z.pow_nonzero; lia).
      cbn [Z.eqb]. rewrite Z.div_mul by (apply Z.pow_nonzero; lia).
      reflexivity.
Qed.

(** Adding a positive zero to the conversion of an integer changes
    nothing. *)
Lemma add_of_int_zero (z : Z) :
  - 2 ^ 53 < z < 2 ^ 53 ->
  Float64.add (Float64.of_int z) (S754_zero false) = Float64.of_int z.
Proof.
  intros Hz. destruct z as [|m|m]; [reflexivity| |];
    unfold Float64.of_int, binary_normalize.
  - destruct (binary_round_small false m) as [mz [ez [-> _]]]; [lia | reflexivity].
  - destruct (binary_round_small true m) as [mz [ez [-> _]]]; [lia | reflexivity].
Qed.

(** A whole number of seconds converts without rounding. *)
Lemma Seconds_whole (k : Z) :
  - 2 ^ 53 < k < 2 ^ 53 ->
  time.Seconds (k * time.Second) = Float64.of_int k.
Proof.
  intros Hk. unfold time.Seconds.
  rewrite Z.quot_mul, Z.rem_mul by (vm_compute; discriminate).
  change (Float64.div (Float64.of_int 0) (Float64.of_int 1000000000))
    with (S754_zero false).
  now apply add_of_int_zero.
Qed.

(** The zero time is the only one [timestamp] does not convert, and its
    Unix seconds would be negative. *)
Lemma IsZero_Unix (t : time.Time) :
  time.IsZero t = true -> time.Unix t = -62135596800.
Proof.
  unfold time.IsZero, time.Unix, time.unixSec. rewrite andb_true_iff.
  intros [H _]. apply Z.eqb_eq in H. rewrite H. reflexivity.
Qed.

(** The samples of the six descriptors whose values are converted. *)
Lemma samplesOf_converted {S} (ns : string) (st : StatusSource S) (src src' : S)
    (s : apcupsd.Status) :
  namespaceValid ns = true ->
  labelsValid s = true ->
  StatusSource_Status st src = (inl (Some s), src') ->
  let c := NewUPSCollector ns st in
  let G := prometheus.GaugeValue in
  let l := deviceLabels s in
  (samplesOf (LastTransferOnBatteryTimeSeconds c) (emitted c src) =
     [prometheus.constMetric (LastTransferOnBatteryTimeSeconds c) G
        (timestamp (apcupsd.XOnBattery s)) l]
   /\ samplesOf (LastTransferOffBatteryTimeSeconds c) (emitted c src) =
     [prometheus.constMetric (LastTransferOffBatteryTimeSeconds c) G
        (timestamp (apcupsd.XOffBattery s)) l]
   /\ samplesOf (LastSelftestTimeSeconds c) (emitted c src) =
     [prometheus.constMetric (LastSelftestTimeSeconds c) G
        (timestamp (apcupsd.LastSelftest s)) l])
  /\ (samplesOf (BatteryTimeLeftSeconds c) (emitted c src) =
     [prometheus.constMetric (BatteryTimeLeftSeconds c) G
        (time.Seconds (apcupsd.TimeLeft s)) l]
   /\ samplesOf (BatteryTimeOnSeconds c) (emitted c src) =
     [prometheus.constMetric (BatteryTimeOnSeconds c) G
        (time.Seconds (apcupsd.TimeOnBattery s)) l]
   /\ samplesOf (BatteryCumulativeTimeOnSecondsTotal c) (emitted c src) =
     [prometheus.constMetric (BatteryCumulativeTimeOnSecondsTotal c)
        prometheus.CounterValue
        (time.Seconds (apcupsd.CumulativeTimeOnBattery s)) l]).
Proof.
  intros Hns Hl H c G l. subst c G l.
  repeat split; scrape_ok Hns Hl H; select_samples; reflexivity.
Qed.

(** ** Series, status lines and bits *)

Ltac series_differ :=
  let E := fresh "E" in
  intros E;
  first [ discriminate E
        | injection E; clear E; intros E;
          apply BuildFQName_inj in E; discriminate ].

Lemma masks_complete (n : nat) (mask : list bool) :
  List.length mask = n -> In mask (masks n).
Proof.
  revert mask; induction n as [|n IH]; intros [|b mask] E; try discriminate.
  - now left.
  - injection E as E. cbn [masks]. apply in_or_app.
    destruct b; [left | right]; apply in_map; auto.
Qed.

Lemma all_lines_check : forallb lineCheck (masks 13) = true.
Proof. vm_compute. reflexivity. Qed.

Lemma append_assoc (a b c : string) : (a ++ b) ++ c = a ++ b ++ c.
Proof. induction a as [|x a IH]; simpl; [reflexivity | now rewrite IH]. Qed.

Lemma Substring_trans (a b c : string) :
  strings.Substring a b -> strings.Substring b c -> strings.Substring a c.
Proof.
  intros [p1 [q1 ->]] [p2 [q2 ->]].
  exists (p2 ++ p1), (q1 ++ q2).
  now rewrite !append_assoc.
Qed.

Lemma land_small (a n : Z) :
  0 <= n -> 0 <= a < 2 ^ n -> Z.land a (2 ^ n) = 0 /\ Z.land a (2 ^ n - 1) = a.
Proof.
  intros Hn Ha. split.
  - apply Z.bits_inj'. intros i Hi. rewrite Z.land_spec, Z.bits_0.
    destruct (Z.eq_dec i n) as [E|N].
    + subst i. assert (T : Z.testbit a n = false).
      { destruct (Z.eq_dec a 0) as [->|Na]; [apply Z.bits_0|].
        apply Z.bits_above_log2; [lia|]. apply Z.log2_lt_pow2; lia. }
      now rewrite T.
    + rewrite (Z.pow2_bits_false n i) by lia. apply andb_false_r.
  - replace (2 ^ n - 1) with (Z.ones n) by (rewrite Z.ones_equiv; lia).
    rewrite Z.land_ones by lia. apply Z.mod_small. lia.
Qed.


(** * The claims *)

(** C1, as the code has it.  With a namespace that makes valid metric
    names, for every snapshot whose device name, hostname and model are
    valid UTF-8, and for each of the 13 tokens of the fixed vocabulary,
    the collection emits exactly one indicator sample for that token; its
    value is 1 if the snapshot's status string contains the token as a
    substring and 0 otherwise.  The sum of the 13 indicator values is the
    number of tokens that occur in the status string. *)
Theorem C1_flag_indicators {S} (ns : string) (st : StatusSource S)
    (src src' : S) (s : apcupsd.Status) :
  namespaceValid ns = true ->
  labelsValid s = true ->
  StatusSource_Status st src = (inl (Some s), src') ->
  let c := NewUPSCollector ns st in
  List.length upsStatus = 13%nat
  /\ NoDup upsStatus
  /\ (forall tok, In tok upsStatus ->
        indicatorsOf (Status c) tok (emitted c src) =
        [prometheus.constMetric (Status c) prometheus.GaugeValue
           (if strings.Contains (apcupsd.Status_ s) tok
            then Float64.of_int 1 else Float64.of_int 0)
           (deviceLabels s ++ [tok])])
  /\ (forall tok, strings.Contains (apcupsd.Status_ s) tok = true
                  <-> strings.Substring tok (apcupsd.Status_ s))
  /\ List.length (samplesOf (Status c) (emitted c src)) = 13%nat
  /\ sumValues (samplesOf (Status c) (emitted c src))
     = Float64.of_int (Z.of_nat (List.length (matchedTokens (apcupsd.Status_ s)))).
Proof.
  intros Hns Hl H c. split; [reflexivity|]. split.
  { unfold upsStatus.
    repeat (constructor; [simpl; intuition discriminate|]). constructor. }
  split.
  { intros tok Hin. now apply indicatorsOf_token with (src' := src'). }
  split; [intros tok; apply Contains_iff|].
  subst c. rewrite (samplesOf_Status ns st src src' s Hns Hl H). split.
  { now rewrite length_map. }
  unfold sumValues, matchedTokens.
  change (Float64.of_int 0) with (Float64.of_int (Z.of_nat 0)).
  rewrite sum_indicators; [reflexivity | simpl; lia].
Qed.

Lemma C1_flag_indicators_witness :
  namespaceValid "apcupsd" = true
  /\ labelsValid (exampleStatus "ONLINE LOWBATT") = true
  /\ StatusSource_Status (fixedSource (inl (Some (exampleStatus "ONLINE LOWBATT")))) 0%nat
  = (inl (Some (exampleStatus "ONLINE LOWBATT")), 1%nat)
  /\ sumValues (samplesOf (Status (exampleCollector "ONLINE LOWBATT"))
                          (emitted (exampleCollector "ONLINE LOWBATT") 0%nat))
     = Float64.of_int 2.
Proof.
  split; [reflexivity|]. split; [reflexivity|]. split; [reflexivity|].
  exact (proj2 (proj2 (proj2 (proj2 (proj2
    (C1_flag_indicators "apcupsd"
       (fixedSource (inl (Some (exampleStatus "ONLINE LOWBATT")))) 0%nat 1%nat
       (exampleStatus "ONLINE LOWBATT") eq_refl eq_refl eq_refl)))))).
Defined.

(** C1 fails as stated: for a snapshot whose status string contains
    ONLINE but whose device name is the byte 0xFF, not valid UTF-8, the
    first [MustNewConstMetric] panics and no indicator sample is emitted,
    for ONLINE or for any other token. *)
Lemma C1_counterexample :
  StatusSource_Status (fixedSource (inl (Some (garbledStatus "ONLINE")))) 0%nat
  = (inl (Some (garbledStatus "ONLINE")), 1%nat)
  /\ In "ONLINE" upsStatus
  /\ strings.Contains (apcupsd.Status_ (garbledStatus "ONLINE")) "ONLINE" = true
  /\ utf8.ValidString (apcupsd.UPSName (garbledStatus "ONLINE")) = false
  /\ indicatorsOf (Status (garbledCollector "ONLINE")) "ONLINE"
       (emitted (garbledCollector "ONLINE") 0%nat) = []
  /\ emitted (garbledCollector "ONLINE") 0%nat = []
  /\ fst (scrape (garbledCollector "ONLINE") 0%nat)
     = Go.Panicked (libraryPanic (invalidLabelValue (String "255"%char EmptyString))).
Proof.
  split; [reflexivity|]. split; [simpl; tauto|].
  repeat split; vm_compute; reflexivity.
Qed.

(** C2.  When the status source returns an error, the collection emits
    exactly one signal, the invalid metric attached to the info descriptor
    and carrying that error, and nothing else; the operation returns
    normally after a single call of the source. *)
Theorem C2_fetch_failure {S} (ns : string) (st : StatusSource S)
    (src src' : S) (err : error) :
  StatusSource_Status st src = (inr err, src') ->
  let c := NewUPSCollector ns st in
  emitted c src = [prometheus.NewInvalidMetric (Info c) err]
  /\ fst (scrape c src) = Go.Returned tt
  /\ Go.source (snd (scrape c src)) = src'
  /\ (forall m, In m (emitted c src) ->
        prometheus.metricValue m = None
        /\ prometheus.metricDesc m = Info c
        /\ prometheus.metricErr m = Some err).
Proof.
  intros H c. subst c. unfold emitted.
  rewrite (scrape_failure ns st src src' err H). cbn [fst snd Go.channel Go.source].
  repeat split; try reflexivity;
    destruct H0 as [<-|[]]; reflexivity.
Qed.

Lemma C2_fetch_failure_witness :
  StatusSource_Status (fixedSource (inr {| Error := "dial tcp: connection refused" |})) 0%nat
  = (inr {| Error := "dial tcp: connection refused" |}, 1%nat)
  /\ emitted (failingCollector "dial tcp: connection refused") 0%nat
     = [prometheus.NewInvalidMetric
          (Info (failingCollector "dial tcp: connection refused"))
          {| Error := "dial tcp: connection refused" |}].
Proof.
  split; [reflexivity|].
  exact (proj1 (C2_fetch_failure "apcupsd"
                  (fixedSource (inr {| Error := "dial tcp: connection refused" |}))
                  0%nat 1%nat {| Error := "dial tcp: connection refused" |} eq_refl)).
Defined.

(** C3, as the code has it.  Among the 13 tokens exactly one stands in a
    substring relationship with another: SLAVE occurs inside SLAVEDOWN.
    With a namespace that makes valid metric names, for a snapshot whose
    status string is exactly a token F and whose device name, hostname and
    model are valid UTF-8, the indicator of F is 1 and the indicator of
    every other token is 0, except that a status of SLAVEDOWN also sets
    the indicator of SLAVE to 1. *)
Theorem C3_vocabulary_overlap {S} (ns : string) (st : StatusSource S)
    (src src' : S) (s : apcupsd.Status) (F : string) :
  namespaceValid ns = true ->
  labelsValid s = true ->
  StatusSource_Status st src = (inl (Some s), src') ->
  In F upsStatus ->
  apcupsd.Status_ s = F ->
  let c := NewUPSCollector ns st in
  (forall A B, In A upsStatus -> In B upsStatus -> A <> B ->
     (strings.Substring A B <-> A = "SLAVE" /\ B = "SLAVEDOWN"))
  /\ (forall G, In G upsStatus ->
        indicatorsOf (Status c) G (emitted c src) =
        [prometheus.constMetric (Status c) prometheus.GaugeValue
           (if String.eqb G F
               || (String.eqb G "SLAVE" && String.eqb F "SLAVEDOWN")
            then Float64.of_int 1 else Float64.of_int 0)
           (deviceLabels s ++ [G])]).
Proof.
  intros Hns Hl H HF HS c. split.
  - intros A B HA HB Hne. rewrite <- Contains_iff, (Contains_vocabulary A B HA HB).
    apply String.eqb_neq in Hne. rewrite Hne. cbn [orb].
    rewrite andb_true_iff, !String.eqb_eq. reflexivity.
  - intros G HG. subst c.
    rewrite (indicatorsOf_token ns st src src' s G Hns Hl H HG).
    rewrite HS, (Contains_vocabulary G F HG HF). reflexivity.
Qed.

Lemma C3_vocabulary_overlap_witness :
  namespaceValid "apcupsd" = true
  /\ labelsValid (exampleStatus "ONLINE") = true
  /\ StatusSource_Status (fixedSource (inl (Some (exampleStatus "ONLINE")))) 0%nat
  = (inl (Some (exampleStatus "ONLINE")), 1%nat)
  /\ In "ONLINE" upsStatus
  /\ apcupsd.Status_ (exampleStatus "ONLINE") = "ONLINE"
  /\ (forall A B, In A upsStatus -> In B upsStatus -> A <> B ->
        (strings.Substring A B <-> A = "SLAVE" /\ B = "SLAVEDOWN")).
Proof.
  assert (Hin : In "ONLINE" upsStatus) by (simpl; tauto).
  split; [reflexivity|]. split; [reflexivity|].
  split; [reflexivity|]. split; [exact Hin|]. split; [reflexivity|].
  exact (proj1 (C3_vocabulary_overlap "apcupsd"
                  (fixedSource (inl (Some (exampleStatus "ONLINE")))) 0%nat 1%nat
                  (exampleStatus "ONLINE") "ONLINE"
                  eq_refl eq_refl eq_refl Hin eq_refl)).
Defined.

(** C3 fails as stated: SLAVE and SLAVEDOWN are two distinct tokens of the
    vocabulary, the first occurs inside the second, and a snapshot whose
    status string is exactly SLAVEDOWN yields the value 1, not 0, for the
    indicator of SLAVE. *)
Lemma C3_counterexample :
  In "SLAVE" upsStatus /\ In "SLAVEDOWN" upsStatus
  /\ "SLAVE" <> "SLAVEDOWN"
  /\ strings.Contains "SLAVEDOWN" "SLAVE" = true
  /\ map prometheus.metricValue
       (indicatorsOf (Status (exampleCollector "SLAVEDOWN")) "SLAVE"
          (emitted (exampleCollector "SLAVEDOWN") 0%nat))
     = [Some (Float64.of_int 1)]
  /\ Float64.of_int 1 <> Float64.of_int 0.
Proof.
  repeat split; try (simpl; tauto); try discriminate; vm_compute; reflexivity.
Qed.

(** C5, as the code has it.  With a namespace that makes valid metric
    names, a collection whose fetch succeeds with a snapshot whose device
    name, hostname and model are valid UTF-8 emits exactly one sample for
    every advertised descriptor other than the status descriptor, and
    exactly 13 samples for the status descriptor, one per token of the
    vocabulary: 30 samples against 18 descriptors. *)
Theorem C5_samples_per_descriptor {S} (ns : string) (st : StatusSource S)
    (src src' : S) (s : apcupsd.Status) :
  namespaceValid ns = true ->
  labelsValid s = true ->
  StatusSource_Status st src = (inl (Some s), src') ->
  let c := NewUPSCollector ns st in
  List.length (described c src) = 18%nat
  /\ NoDup (described c src)
  /\ (forall d, In d (described c src) ->
        List.length (samplesOf d (emitted c src))
        = if prometheus.Desc_eqb d (Status c) then 13%nat else 1%nat)
  /\ map flagOf (samplesOf (Status c) (emitted c src)) = map Some upsStatus
  /\ List.length (emitted c src) = 30%nat.
Proof.
  intros Hns Hl H c. split; [reflexivity|]. split; [apply described_NoDup|]. split.
  - intros d Hd. subst c. rewrite described_eq in Hd. cbv zeta in Hd.
    cbn [In] in Hd.
    repeat (destruct Hd as [<-|Hd];
            [ scrape_ok Hns Hl H; select_samples; reflexivity |]).
    contradiction.
  - subst c. split.
    + rewrite (samplesOf_Status ns st src src' s Hns Hl H). reflexivity.
    + scrape_ok Hns Hl H. reflexivity.
Qed.

Lemma C5_samples_per_descriptor_witness :
  namespaceValid "apcupsd" = true
  /\ labelsValid (exampleStatus "ONLINE") = true
  /\ StatusSource_Status (fixedSource (inl (Some (exampleStatus "ONLINE")))) 0%nat
  = (inl (Some (exampleStatus "ONLINE")), 1%nat)
  /\ List.length (emitted (exampleCollector "ONLINE") 0%nat) = 30%nat.
Proof.
  split; [reflexivity|]. split; [reflexivity|]. split; [reflexivity|].
  exact (proj2 (proj2 (proj2 (proj2
    (C5_samples_per_descriptor "apcupsd"
       (fixedSource (inl (Some (exampleStatus "ONLINE")))) 0%nat 1%nat
       (exampleStatus "ONLINE") eq_refl eq_refl eq_refl))))).
Defined.

(** C5 fails as stated: the status descriptor is advertised by [Describe],
    and a successful collection emits 13 samples against it, not one. *)
Lemma C5_counterexample :
  In (Status (exampleCollector "ONLINE")) (described (exampleCollector "ONLINE") 0%nat)
  /\ List.length (samplesOf (Status (exampleCollector "ONLINE"))
                            (emitted (exampleCollector "ONLINE") 0%nat)) = 13%nat
  /\ 13%nat <> 1%nat.
Proof.
  split; [vm_compute; right; left; reflexivity|].
  split; [vm_compute; reflexivity | discriminate].
Qed.




(** C7.  Every sample a collection emits for a fetched snapshot carries
    exactly the three identifying labels ups_name, hostname and model,
    with the values of the snapshot, except the samples of the
    flag-indicator family, which carry exactly four: the same three and a
    fourth, status, that names the flag; the fourth label ranges over the
    13 tokens of the vocabulary only.  When the namespace makes valid
    metric names and the label values are valid UTF-8, the fourth label
    takes each of the 13 tokens once. *)
Theorem C7_labels {S} (ns : string) (st : StatusSource S)
    (src src' : S) (s : apcupsd.Status) :
  StatusSource_Status st src = (inl (Some s), src') ->
  let c := NewUPSCollector ns st in
  (forall m, In m (emitted c src) ->
     (prometheus.metricDesc m = Status c
      /\ exists tok, In tok upsStatus
         /\ prometheus.metricLabels m =
            [ ("ups_name", apcupsd.UPSName s); ("hostname", apcupsd.Hostname s);
              ("model", apcupsd.Model s); ("status", tok) ])
     \/ (prometheus.metricDesc m <> Status c
         /\ prometheus.metricLabels m =
            [ ("ups_name", apcupsd.UPSName s); ("hostname", apcupsd.Hostname s);
              ("model", apcupsd.Model s) ]))
  /\ (namespaceValid ns = true -> labelsValid s = true ->
      map flagOf (samplesOf (Status c) (emitted c src)) = map Some upsStatus).
Proof.
  intros H c. subst c. split.
  - destruct (namespaceValid ns && labelsValid s) eqn:V.
    + apply andb_true_iff in V. destruct V as [Hns Hl].
      scrape_ok Hns Hl H. intros m Hm. apply in_app_or in Hm.
      destruct Hm as [Hm|Hm].
      * apply in_map_iff in Hm. destruct Hm as [tok [<- Htok]]. left.
        split; [reflexivity|]. exists tok. split; [exact Htok | reflexivity].
      * cbn [In] in Hm.
        repeat (destruct Hm as [<-|Hm];
                [ right; split; [|reflexivity];
                  intros E; apply Desc_eqb_eq in E; revert E; expose_descs;
                  rewrite Desc_eqb_built by discriminate; vm_compute; discriminate
                |]).
        contradiction.
    + rewrite (emitted_rejected ns st src src' s H V). intros m [].
  - intros Hns Hl. rewrite (samplesOf_Status ns st src src' s Hns Hl H).
    reflexivity.
Qed.

Lemma C7_labels_witness :
  StatusSource_Status (fixedSource (inl (Some (exampleStatus "ONLINE")))) 0%nat
  = (inl (Some (exampleStatus "ONLINE")), 1%nat)
  /\ map flagOf (samplesOf (Status (exampleCollector "ONLINE"))
                           (emitted (exampleCollector "ONLINE") 0%nat))
     = map Some upsStatus.
Proof.
  split; [reflexivity|].
  exact (proj2 (C7_labels "apcupsd"
                  (fixedSource (inl (Some (exampleStatus "ONLINE")))) 0%nat 1%nat
                  (exampleStatus "ONLINE") eq_refl) eq_refl eq_refl).
Defined.

(** C9.  Whatever the status source answers, an error or a snapshot, the
    descriptor of every sample that [Collect] emits is one of the
    descriptors that [Describe] sends. *)
Theorem C9_lock_step {S} (ns : string) (st : StatusSource S) (src src0 : S) :
  let c := NewUPSCollector ns st in
  Forall (fun m => In (prometheus.metricDesc m) (described c src0))
         (emitted c src).
Proof.
  intros c. apply Forall_forall. intros m.
  subst c. rewrite described_eq. cbv zeta.
  destruct (StatusSource_Status st src) as [[[s|]|err] src'] eqn:H.
  - destruct (namespaceValid ns && labelsValid s) eqn:V.
    + apply andb_true_iff in V. destruct V as [Hns Hl].
      scrape_ok Hns Hl H. intros Hm. apply in_app_or in Hm.
      destruct Hm as [Hm|Hm].
      * apply in_map_iff in Hm. destruct Hm as [tok [<- _]].
        right; left; reflexivity.
      * cbn [In] in Hm.
        repeat (destruct Hm as [<-|Hm];
                [ cbn [prometheus.metricDesc In];
                  repeat (first [left; reflexivity | right]) |]).
        contradiction.
    + rewrite (emitted_rejected ns st src src' s H V). intros [].
  - unfold emitted. rewrite (scrape_nil ns st src src' H).
    cbn [snd Go.channel]. intros [].
  - unfold emitted. rewrite (scrape_failure ns st src src' err H).
    cbn [snd Go.channel In]. intros [<-|[]]. left; reflexivity.
Qed.




(** C4, as the code has it.  With a namespace that makes valid metric
    names, for a snapshot whose device name, hostname and model are valid
    UTF-8, each of the three timestamp fields is emitted, once, as 0 when
    the timestamp is the zero time and as the float64 conversion of its
    Unix seconds otherwise.  The conversion is exact up to 2^53 seconds in
    either direction.  The zero time, whose Unix seconds are negative, is
    emitted as 0 and not as that negative number. *)
Theorem C4_timestamps {S} (ns : string) (st : StatusSource S)
    (src src' : S) (s : apcupsd.Status) :
  namespaceValid ns = true ->
  labelsValid s = true ->
  StatusSource_Status st src = (inl (Some s), src') ->
  let c := NewUPSCollector ns st in
  let stamp := fun t : time.Time =>
    if time.IsZero t then Float64.of_int 0 else Float64.of_int (time.Unix t) in
  samplesOf (LastTransferOnBatteryTimeSeconds c) (emitted c src) =
    [prometheus.constMetric (LastTransferOnBatteryTimeSeconds c)
       prometheus.GaugeValue (stamp (apcupsd.XOnBattery s)) (deviceLabels s)]
  /\ samplesOf (LastTransferOffBatteryTimeSeconds c) (emitted c src) =
    [prometheus.constMetric (LastTransferOffBatteryTimeSeconds c)
       prometheus.GaugeValue (stamp (apcupsd.XOffBattery s)) (deviceLabels s)]
  /\ samplesOf (LastSelftestTimeSeconds c) (emitted c src) =
    [prometheus.constMetric (LastSelftestTimeSeconds c)
       prometheus.GaugeValue (stamp (apcupsd.LastSelftest s)) (deviceLabels s)]
  /\ (forall t, - 2 ^ 53 <= time.Unix t <= 2 ^ 53 ->
        Float64.to_int (stamp t)
        = Some (if time.IsZero t then 0 else time.Unix t))
  /\ (forall t, time.IsZero t = true ->
        stamp t = S754_zero false /\ time.Unix t = -62135596800)
  /\ time.IsZero time.zeroTime = true.
Proof.
  intros Hns Hl H c stamp. subst c.
  destruct (samplesOf_converted ns st src src' s Hns Hl H) as [[E1 [E2 E3]] _].
  split; [exact E1|]. split; [exact E2|]. split; [exact E3|].
  split; [|split; [|reflexivity]].
  - intros t Ht. unfold stamp. destruct (time.IsZero t); [reflexivity|].
    now apply of_int_exact.
  - intros t Ht. unfold stamp. rewrite Ht. split; [reflexivity|].
    now apply IsZero_Unix.
Qed.

Lemma C4_timestamps_witness :
  namespaceValid "apcupsd" = true
  /\ labelsValid (exampleStatus "ONLINE") = true
  /\ StatusSource_Status (fixedSource (inl (Some (exampleStatus "ONLINE")))) 0%nat
     = (inl (Some (exampleStatus "ONLINE")), 1%nat)
  /\ map prometheus.metricValue
       (samplesOf (LastSelftestTimeSeconds (exampleCollector "ONLINE"))
                  (emitted (exampleCollector "ONLINE") 0%nat))
     = [Some (S754_zero false)]
  /\ map prometheus.metricValue
       (samplesOf (LastTransferOnBatteryTimeSeconds (exampleCollector "ONLINE"))
                  (emitted (exampleCollector "ONLINE") 0%nat))
     = [Some (Float64.of_int 1700000000)].
Proof.
  split; [reflexivity|]. split; [reflexivity|]. split; [reflexivity|].
  pose proof (C4_timestamps "apcupsd"
                (fixedSource (inl (Some (exampleStatus "ONLINE")))) 0%nat 1%nat
                (exampleStatus "ONLINE") eq_refl eq_refl eq_refl) as W.
  cbv zeta in W. destruct W as [W1 [_ [W3 _]]].
  split.
  - exact (f_equal (map prometheus.metricValue) W3).
  - exact (f_equal (map prometheus.metricValue) W1).
Defined.

(** C4 fails as stated, in two ways.  A snapshot with valid labels whose
    last transfer to battery lies 2^53 + 1 seconds after the epoch, a
    non-zero timestamp, has it emitted as the float64 nearest to that
    number, which denotes 2^53 and not the timestamp's Unix seconds.  And
    for a snapshot whose device name is not valid UTF-8 no timestamp
    sample is emitted at all. *)
Lemma C4_counterexample :
  StatusSource_Status (fixedSource (inl (Some (lateStatus "ONLINE")))) 0%nat
  = (inl (Some (lateStatus "ONLINE")), 1%nat)
  /\ labelsValid (lateStatus "ONLINE") = true
  /\ time.IsZero (apcupsd.XOnBattery (lateStatus "ONLINE")) = false
  /\ time.Unix (apcupsd.XOnBattery (lateStatus "ONLINE")) = 2 ^ 53 + 1
  /\ map (fun m => match prometheus.metricValue m with
                   | Some v => Float64.to_int v
                   | None => None
                   end)
         (samplesOf (LastTransferOnBatteryTimeSeconds (lateCollector "ONLINE"))
                    (emitted (lateCollector "ONLINE") 0%nat))
     = [Some (2 ^ 53)]
  /\ 2 ^ 53 <> 2 ^ 53 + 1
  /\ StatusSource_Status (fixedSource (inl (Some (garbledStatus "ONLINE")))) 0%nat
     = (inl (Some (garbledStatus "ONLINE")), 1%nat)
  /\ utf8.ValidString (apcupsd.UPSName (garbledStatus "ONLINE")) = false
  /\ samplesOf (LastTransferOnBatteryTimeSeconds (garbledCollector "ONLINE"))
               (emitted (garbledCollector "ONLINE") 0%nat) = [].
Proof.
  split; [reflexivity|]. split; [reflexivity|].
  split; [vm_compute; reflexivity|]. split; [vm_compute; reflexivity|].
  split; [vm_compute; reflexivity|]. split; [vm_compute; discriminate|].
  split; [reflexivity|]. split; [reflexivity|]. vm_compute. reflexivity.
Qed.

(** C8, as the code has it.  With a namespace that makes valid metric
    names, for a snapshot whose device name, hostname and model are valid
    UTF-8, each of the three duration fields is emitted, once, as what
    Go's [Duration.Seconds] returns for it: the float64 sum of the whole
    seconds and of the remaining nanoseconds divided by 1e9.  A whole
    number of seconds is emitted without rounding; a duration of 90
    seconds emits exactly 90.0, one of 1.5 seconds exactly 1.5. *)
Theorem C8_durations {S} (ns : string) (st : StatusSource S)
    (src src' : S) (s : apcupsd.Status) :
  namespaceValid ns = true ->
  labelsValid s = true ->
  StatusSource_Status st src = (inl (Some s), src') ->
  let c := NewUPSCollector ns st in
  samplesOf (BatteryTimeLeftSeconds c) (emitted c src) =
    [prometheus.constMetric (BatteryTimeLeftSeconds c) prometheus.GaugeValue
       (time.Seconds (apcupsd.TimeLeft s)) (deviceLabels s)]
  /\ samplesOf (BatteryTimeOnSeconds c) (emitted c src) =
    [prometheus.constMetric (BatteryTimeOnSeconds c) prometheus.GaugeValue
       (time.Seconds (apcupsd.TimeOnBattery s)) (deviceLabels s)]
  /\ samplesOf (BatteryCumulativeTimeOnSecondsTotal c) (emitted c src) =
    [prometheus.constMetric (BatteryCumulativeTimeOnSecondsTotal c)
       prometheus.CounterValue
       (time.Seconds (apcupsd.CumulativeTimeOnBattery s)) (deviceLabels s)]
  /\ (forall d : time.Duration,
        time.Seconds d =
        Float64.add (Float64.of_int (Z.quot d 1000000000))
          (Float64.div (Float64.of_int (Z.rem d 1000000000))
                       (Float64.of_int 1000000000)))
  /\ (forall k, - 2 ^ 53 < k < 2 ^ 53 ->
        time.Seconds (k * time.Second) = Float64.of_int k
        /\ Float64.to_int (time.Seconds (k * time.Second)) = Some k)
  /\ time.Seconds (90 * time.Second) = S754_finite false (90 * 2 ^ 46) (-46)
  /\ time.Seconds (1500 * time.Millisecond) = S754_finite false (3 * 2 ^ 51) (-52).
Proof.
  intros Hns Hl H c. subst c.
  destruct (samplesOf_converted ns st src src' s Hns Hl H) as [_ [E1 [E2 E3]]].
  split; [exact E1|]. split; [exact E2|]. split; [exact E3|].
  split; [intros d; reflexivity|].
  split; [|split; vm_compute; reflexivity].
  intros k Hk. rewrite (Seconds_whole k Hk). split; [reflexivity|].
  apply of_int_exact. lia.
Qed.

Lemma C8_durations_witness :
  namespaceValid "apcupsd" = true
  /\ labelsValid (exampleStatus "ONBATT") = true
  /\ StatusSource_Status (fixedSource (inl (Some (exampleStatus "ONBATT")))) 0%nat
     = (inl (Some (exampleStatus "ONBATT")), 1%nat)
  /\ map prometheus.metricValue
       (samplesOf (BatteryTimeLeftSeconds (exampleCollector "ONBATT"))
                  (emitted (exampleCollector "ONBATT") 0%nat))
     = [Some (S754_finite false (90 * 2 ^ 46) (-46))].
Proof.
  split; [reflexivity|]. split; [reflexivity|]. split; [reflexivity|].
  pose proof (C8_durations "apcupsd"
                (fixedSource (inl (Some (exampleStatus "ONBATT")))) 0%nat 1%nat
                (exampleStatus "ONBATT") eq_refl eq_refl eq_refl) as W.
  cbv zeta in W. destruct W as [W1 _].
  exact (f_equal (map prometheus.metricValue) W1).
Defined.

(** C8 fails as stated: for a snapshot with a time left of 90 seconds
    whose device name is not valid UTF-8, the collection is stopped by a
    panic before anything is sent, and no duration is emitted. *)
Lemma C8_counterexample :
  StatusSource_Status (fixedSource (inl (Some (garbledStatus "ONBATT")))) 0%nat
  = (inl (Some (garbledStatus "ONBATT")), 1%nat)
  /\ apcupsd.TimeLeft (garbledStatus "ONBATT") = 90 * time.Second
  /\ utf8.ValidString (apcupsd.UPSName (garbledStatus "ONBATT")) = false
  /\ samplesOf (BatteryTimeLeftSeconds (garbledCollector "ONBATT"))
               (emitted (garbledCollector "ONBATT") 0%nat) = []
  /\ emitted (garbledCollector "ONBATT") 0%nat = [].
Proof.
  split; [reflexivity|]. split; [reflexivity|]. split; [reflexivity|].
  split; vm_compute; reflexivity.
Qed.

(** * Further properties of the collector *)

(** ** Helpers *)

(** Whether the library accepts a sample depends on the descriptor and on
    the label values, not on the value or its type. *)
Lemma NewConstMetric_error (d : prometheus.Desc) (ty ty' : prometheus.ValueType)
    (v v' : Float64.float64) (l : list string) (e : libraryError) :
  prometheus.NewConstMetric d ty v l = inr e ->
  prometheus.NewConstMetric d ty' v' l = inr e.
Proof.
  unfold prometheus.NewConstMetric.
  destruct (prometheus.err d); [trivial|].
  destruct (prometheus.validateLabelValues _ _); [trivial | discriminate].
Qed.

(** The first send of a collection decides: when the library refuses the
    first flag sample, the collection panics with that very error. *)
Lemma scrape_first_send {S} (ns : string) (st : StatusSource S) (src src' : S)
    (s : apcupsd.Status) (e : libraryError) :
  StatusSource_Status st src = (inl (Some s), src') ->
  prometheus.NewConstMetric (Status (NewUPSCollector ns st)) prometheus.GaugeValue
    (Float64.of_int 0) (deviceLabels s ++ ["CAL"]) = inr e ->
  scrape (NewUPSCollector ns st) src =
  (Go.Panicked (libraryPanic e),
   {| Go.source := src'; Go.channel := []; Go.logger := [] |}).
Proof.
  intros H E. revert E. fetch H. intros E.
  repeat (first [rewrite bind_assoc]; cbv beta).
  rewrite bind_deref. cbv beta zeta.
  match goal with
  | |- context [Go.bind (sendConstMetric ?d ?ty ?v ?l) ?k ?w] =>
      now rewrite (bind_send_rejected d ty v l e k w
                     (NewConstMetric_error _ _ ty _ v _ e E))
  end.
Qed.

(** The first flag sample is accepted only for a valid namespace and valid
    label values. *)
Lemma first_send_accepted {S} (ns : string) (st : StatusSource S)
    (s : apcupsd.Status) (m : prometheus.Metric) :
  prometheus.NewConstMetric (Status (NewUPSCollector ns st)) prometheus.GaugeValue
    (Float64.of_int 0) (deviceLabels s ++ ["CAL"]) = inl m ->
  namespaceValid ns = true /\ labelsValid s = true.
Proof.
  expose_descs. intros E.
  destruct (namespaceValid ns) eqn:Hns.
  - split; [reflexivity|]. destruct (labelsValid s) eqn:Hl; [reflexivity|].
    exfalso.
    match type of E with
    | prometheus.NewConstMetric ?d ?ty ?v ?l = _ =>
        destruct (NewConstMetric_rejects d ty v l) as [e E'];
        [| rewrite E' in E; discriminate E]
    end.
    right. unfold labelsValid in Hl. rewrite forallb_app, Hl. reflexivity.
  - exfalso.
    match type of E with
    | prometheus.NewConstMetric ?d ?ty ?v ?l = _ =>
        destruct (NewConstMetric_rejects d ty v l) as [e E'];
        [| rewrite E' in E; discriminate E]
    end.
    left. rewrite NewDesc_err by reflexivity. rewrite Hns. discriminate.
Qed.

(** The collector over a source that answers nil and nil, run once. *)
Example scrape_nilCollector :
  scrape nilCollector 0%nat =
  (Go.Panicked nilDereference,
   {| Go.source := 1%nat; Go.channel := []; Go.logger := [] |}).
Proof. vm_compute. reflexivity. Qed.

(** ** The properties *)

(** X1.  Whatever the status source answers, [Collect] calls it exactly
    once: the source is left in the state its single call produced.  It
    logs one line that carries the error when the call failed, and
    nothing otherwise.  It returns normally when the call failed.  When
    the call answers a nil status with a nil error it panics on the first
    read through the pointer, with nothing sent.  When the call answers a
    snapshot, the first flag sample decides: if the library accepts it,
    [Collect] returns normally with 30 samples sent; if the library
    refuses it, [Collect] panics with the library's error and nothing is
    sent. *)
Theorem Collect_single_fetch {S} (ns : string) (st : StatusSource S) (src : S) :
  let c := NewUPSCollector ns st in
  Go.source (snd (scrape c src)) = snd (StatusSource_Status st src)
  /\ Go.logger (snd (scrape c src)) =
     match fst (StatusSource_Status st src) with
     | inl _ => []
     | inr err => ["failed collecting UPS metrics: " ++ Error err]
     end
  /\ match fst (StatusSource_Status st src) with
     | inr _ => fst (scrape c src) = Go.Returned tt
     | inl None =>
         fst (scrape c src) = Go.Panicked nilDereference
         /\ emitted c src = []
     | inl (Some s) =>
         match prometheus.NewConstMetric (Status c) prometheus.GaugeValue
                 (Float64.of_int 0) (deviceLabels s ++ ["CAL"]) with
         | inl _ =>
             fst (scrape c src) = Go.Returned tt
             /\ List.length (emitted c src) = 30%nat
         | inr e =>
             fst (scrape c src) = Go.Panicked (libraryPanic e)
             /\ emitted c src = []
         end
     end.
Proof.
  intros c. subst c. unfold emitted.
  destruct (StatusSource_Status st src) as [[[s|]|err] src'] eqn:H; cbn [fst snd].
  - destruct (prometheus.NewConstMetric _ _ _ _) as [m|e] eqn:E.
    + destruct (first_send_accepted ns st s m E) as [Hns Hl].
      rewrite (scrape_success ns st src src' s Hns Hl H). repeat split.
    + rewrite (scrape_first_send ns st src src' s e H E). repeat split.
  - rewrite (scrape_nil ns st src src' H). repeat split.
  - rewrite (scrape_failure ns st src src' err H). repeat split.
Qed.

(** X3.  The names [Describe] advertises are the 18 metric names prefixed
    with the namespace and an underscore; with an empty namespace they are
    the bare metric names, with no leading underscore. *)
Theorem Describe_names_prefixed {S} (ns : string) (st : StatusSource S) (src : S) :
  map prometheus.fqName (described (NewUPSCollector ns st) src) =
  map (fun suffix => if String.eqb ns EmptyString then suffix
                     else ns ++ "_" ++ suffix) metricSuffixes.
Proof.
  rewrite described_eq. cbv zeta.
  change (map prometheus.fqName _)
    with (map (fun suffix => prometheus.BuildFQName ns EmptyString suffix)
              metricSuffixes).
  apply map_ext_in. intros suffix Hin. unfold prometheus.BuildFQName.
  assert (Hne : String.eqb suffix EmptyString = false).
  { unfold metricSuffixes in Hin. cbn [In] in Hin.
    repeat (destruct Hin as [<-|Hin]; [reflexivity|]). contradiction. }
  rewrite Hne. destruct (String.eqb ns EmptyString); reflexivity.
Qed.

(** X4.  Whatever the namespace, the 18 names [Describe] advertises are
    pairwise different. *)
Theorem Describe_names_distinct {S} (ns : string) (st : StatusSource S) (src : S) :
  NoDup (map prometheus.fqName (described (NewUPSCollector ns st) src)).
Proof.
  rewrite described_eq. cbv zeta.
  change (map prometheus.fqName _)
    with (map (fun suffix => prometheus.BuildFQName ns EmptyString suffix)
              metricSuffixes).
  unfold metricSuffixes. cbn [map].
  repeat (constructor;
    [ cbn [In]; intros Hin;
      repeat (destruct Hin as [Hin|Hin];
              [ apply BuildFQName_inj in Hin; discriminate |]);
      contradiction |]).
  constructor.
Qed.

(** X5.  With a namespace that makes valid metric names, for a snapshot
    with valid UTF-8 label values, each of the eight float64 fields of the
    snapshot is emitted once, as a gauge under its own descriptor, with
    the value of the field unchanged: load and charge percent, line,
    nominal line, output, battery and nominal battery voltage, internal
    temperature. *)
Theorem Collect_passes_floats_through {S} (ns : string) (st : StatusSource S)
    (src src' : S) (s : apcupsd.Status) :
  namespaceValid ns = true ->
  labelsValid s = true ->
  StatusSource_Status st src = (inl (Some s), src') ->
  let c := NewUPSCollector ns st in
  let G := prometheus.GaugeValue in
  let l := deviceLabels s in
  samplesOf (UPSLoadPercent c) (emitted c src) =
    [prometheus.constMetric (UPSLoadPercent c) G (apcupsd.LoadPercent s) l]
  /\ samplesOf (BatteryChargePercent c) (emitted c src) =
    [prometheus.constMetric (BatteryChargePercent c) G (apcupsd.BatteryChargePercent s) l]
  /\ samplesOf (LineVolts c) (emitted c src) =
    [prometheus.constMetric (LineVolts c) G (apcupsd.LineVoltage s) l]
  /\ samplesOf (LineNominalVolts c) (emitted c src) =
    [prometheus.constMetric (LineNominalVolts c) G (apcupsd.NominalInputVoltage s) l]
  /\ samplesOf (OutputVolts c) (emitted c src) =
    [prometheus.constMetric (OutputVolts c) G (apcupsd.OutputVoltage s) l]
  /\ samplesOf (BatteryVolts c) (emitted c src) =
    [prometheus.constMetric (BatteryVolts c) G (apcupsd.BatteryVoltage s) l]
  /\ samplesOf (BatteryNominalVolts c) (emitted c src) =
    [prometheus.constMetric (BatteryNominalVolts c) G (apcupsd.NominalBatteryVoltage s) l]
  /\ samplesOf (InternalTemperatureCelsius c) (emitted c src) =
    [prometheus.constMetric (InternalTemperatureCelsius c) G (apcupsd.InternalTemp s) l].
Proof.
  intros Hns Hl H c G l. subst c G l.
  repeat split; scrape_ok Hns Hl H; select_samples; reflexivity.
Qed.

Lemma Collect_passes_floats_through_witness :
  namespaceValid "apcupsd" = true
  /\ labelsValid (exampleStatus "ONLINE") = true
  /\ StatusSource_Status (fixedSource (inl (Some (exampleStatus "ONLINE")))) 0%nat
     = (inl (Some (exampleStatus "ONLINE")), 1%nat)
  /\ samplesOf (LineNominalVolts (exampleCollector "ONLINE"))
                (emitted (exampleCollector "ONLINE") 0%nat)
     = [prometheus.constMetric (LineNominalVolts (exampleCollector "ONLINE"))
          prometheus.GaugeValue
          (apcupsd.NominalInputVoltage (exampleStatus "ONLINE"))
          (deviceLabels (exampleStatus "ONLINE"))].
Proof.
  split; [reflexivity|]. split; [reflexivity|]. split; [reflexivity|].
  pose proof (Collect_passes_floats_through "apcupsd"
                (fixedSource (inl (Some (exampleStatus "ONLINE")))) 0%nat 1%nat
                (exampleStatus "ONLINE") eq_refl eq_refl eq_refl) as W.
  cbv zeta in W. exact (proj1 (proj2 (proj2 (proj2 W)))).
Defined.

(** X6.  With a namespace that makes valid metric names, for a snapshot
    with valid UTF-8 label values, the two integer fields, the number of
    transfers and the nominal power, are emitted as their float64
    conversions, which denote the very integers as long as these lie
    within 2^53 of zero. *)
Theorem Collect_integer_fields_exact {S} (ns : string) (st : StatusSource S)
    (src src' : S) (s : apcupsd.Status) :
  namespaceValid ns = true ->
  labelsValid s = true ->
  StatusSource_Status st src = (inl (Some s), src') ->
  - 2 ^ 53 <= apcupsd.NumberTransfers s <= 2 ^ 53 ->
  - 2 ^ 53 <= apcupsd.NominalPower s <= 2 ^ 53 ->
  let c := NewUPSCollector ns st in
  map (fun m => match prometheus.metricValue m with
                | Some v => Float64.to_int v
                | None => None
                end)
      (samplesOf (BatteryNumberTransfersTotal c) (emitted c src)
       ++ samplesOf (NominalPowerWatts c) (emitted c src))
  = [Some (apcupsd.NumberTransfers s); Some (apcupsd.NominalPower s)].
Proof.
  intros Hns Hl H H1 H2 c. subst c.
  assert (E1 : samplesOf (BatteryNumberTransfersTotal (NewUPSCollector ns st))
                 (emitted (NewUPSCollector ns st) src)
               = [prometheus.constMetric (BatteryNumberTransfersTotal (NewUPSCollector ns st))
                    prometheus.CounterValue
                    (Float64.of_int (apcupsd.NumberTransfers s)) (deviceLabels s)])
    by (scrape_ok Hns Hl H; select_samples; reflexivity).
  assert (E2 : samplesOf (NominalPowerWatts (NewUPSCollector ns st))
                 (emitted (NewUPSCollector ns st) src)
               = [prometheus.constMetric (NominalPowerWatts (NewUPSCollector ns st))
                    prometheus.GaugeValue
                    (Float64.of_int (apcupsd.NominalPower s)) (deviceLabels s)])
    by (scrape_ok Hns Hl H; select_samples; reflexivity).
  rewrite E1, E2. cbn [app map prometheus.metricValue].
  now rewrite !of_int_exact.
Qed.

Lemma Collect_integer_fields_exact_witness :
  namespaceValid "apcupsd" = true
  /\ labelsValid (exampleStatus "ONLINE") = true
  /\ StatusSource_Status (fixedSource (inl (Some (exampleStatus "ONLINE")))) 0%nat
     = (inl (Some (exampleStatus "ONLINE")), 1%nat)
  /\ - 2 ^ 53 <= apcupsd.NumberTransfers (exampleStatus "ONLINE") <= 2 ^ 53
  /\ - 2 ^ 53 <= apcupsd.NominalPower (exampleStatus "ONLINE") <= 2 ^ 53
  /\ map (fun m => match prometheus.metricValue m with
                   | Some v => Float64.to_int v
                   | None => None
                   end)
         (samplesOf (BatteryNumberTransfersTotal (exampleCollector "ONLINE"))
                    (emitted (exampleCollector "ONLINE") 0%nat)
          ++ samplesOf (NominalPowerWatts (exampleCollector "ONLINE"))
                       (emitted (exampleCollector "ONLINE") 0%nat))
     = [Some 1; Some 390].
Proof.
  assert (B1 : - 2 ^ 53 <= apcupsd.NumberTransfers (exampleStatus "ONLINE") <= 2 ^ 53)
    by (cbn [apcupsd.NumberTransfers exampleStatus]; lia).
  assert (B2 : - 2 ^ 53 <= apcupsd.NominalPower (exampleStatus "ONLINE") <= 2 ^ 53)
    by (cbn [apcupsd.NominalPower exampleStatus]; lia).
  split; [reflexivity|]. split; [reflexivity|]. split; [reflexivity|].
  split; [exact B1|]. split; [exact B2|].
  exact (Collect_integer_fields_exact "apcupsd"
           (fixedSource (inl (Some (exampleStatus "ONLINE")))) 0%nat 1%nat
           (exampleStatus "ONLINE") eq_refl eq_refl eq_refl B1 B2).
Defined.

(** X7.  No two samples of a collection whose fetch answers a snapshot
    stand for the same time series: the pairs of metric name and label
    values of the samples are pairwise different, whatever the snapshot
    and the namespace. *)
Theorem Collect_series_distinct {S} (ns : string) (st : StatusSource S)
    (src src' : S) (s : apcupsd.Status) :
  StatusSource_Status st src = (inl (Some s), src') ->
  NoDup (map seriesOf (emitted (NewUPSCollector ns st) src)).
Proof.
  intros H. destruct (namespaceValid ns && labelsValid s) eqn:V.
  - apply andb_true_iff in V. destruct V as [Hns Hl].
    scrape_ok Hns Hl H.
    cbv [upsStatus map app deviceLabels seriesOf prometheus.metricLabelValues].
    expose_descs. cbn [prometheus.fqName prometheus.NewDesc].
    repeat (constructor;
      [ cbn [In]; intros Hin;
        repeat (destruct Hin as [Hin|Hin]; [revert Hin; series_differ|]);
        contradiction |]).
    constructor.
  - rewrite (emitted_rejected ns st src src' s H V). constructor.
Qed.

Lemma Collect_series_distinct_witness :
  StatusSource_Status (fixedSource (inl (Some (exampleStatus "ONLINE")))) 0%nat
  = (inl (Some (exampleStatus "ONLINE")), 1%nat)
  /\ NoDup (map seriesOf (emitted (exampleCollector "ONLINE") 0%nat)).
Proof.
  split; [reflexivity|].
  exact (Collect_series_distinct "apcupsd"
           (fixedSource (inl (Some (exampleStatus "ONLINE")))) 0%nat 1%nat
           (exampleStatus "ONLINE") eq_refl).
Defined.

(** X8.  With a namespace that makes valid metric names, for a snapshot
    with valid UTF-8 label values and a status string made of any
    selection of the 13 tokens, in the order of the vocabulary and
    separated by single spaces, the indicator of a token is 1 exactly when
    the token is among the selected ones, or is SLAVE and SLAVEDOWN is
    among them.  The empty selection, an empty status string, sets no
    indicator. *)
Theorem Collect_status_line {S} (ns : string) (st : StatusSource S)
    (src src' : S) (s : apcupsd.Status) (mask : list bool) (tok : string) :
  namespaceValid ns = true ->
  labelsValid s = true ->
  StatusSource_Status st src = (inl (Some s), src') ->
  List.length mask = 13%nat ->
  apcupsd.Status_ s = statusLine (pick mask upsStatus) ->
  In tok upsStatus ->
  let c := NewUPSCollector ns st in
  indicatorsOf (Status c) tok (emitted c src) =
  [prometheus.constMetric (Status c) prometheus.GaugeValue
     (if flagSet (pick mask upsStatus) tok
      then Float64.of_int 1 else Float64.of_int 0)
     (deviceLabels s ++ [tok])].
Proof.
  intros Hns Hl H Hlen Hline Htok c. subst c.
  rewrite (indicatorsOf_token ns st src src' s tok Hns Hl H Htok). rewrite Hline.
  pose proof all_lines_check as A. rewrite forallb_forall in A.
  specialize (A mask (masks_complete 13 mask Hlen)).
  unfold lineCheck in A. rewrite forallb_forall in A.
  specialize (A tok Htok). apply Bool.eqb_prop in A. now rewrite A.
Qed.

Lemma Collect_status_line_witness :
  namespaceValid "apcupsd" = true
  /\ labelsValid (exampleStatus "ONLINE LOWBATT") = true
  /\ StatusSource_Status
       (fixedSource (inl (Some (exampleStatus "ONLINE LOWBATT")))) 0%nat
     = (inl (Some (exampleStatus "ONLINE LOWBATT")), 1%nat)
  /\ List.length [false; false; false; true; false; false; true;
                  false; false; false; false; false; false] = 13%nat
  /\ apcupsd.Status_ (exampleStatus "ONLINE LOWBATT")
     = statusLine (pick [false; false; false; true; false; false; true;
                         false; false; false; false; false; false] upsStatus)
  /\ In "LOWBATT" upsStatus
  /\ map prometheus.metricValue
       (indicatorsOf (Status (exampleCollector "ONLINE LOWBATT")) "LOWBATT"
          (emitted (exampleCollector "ONLINE LOWBATT") 0%nat))
     = [Some (Float64.of_int 1)].
Proof.
  assert (Hin : In "LOWBATT" upsStatus) by (simpl; tauto).
  split; [reflexivity|]. split; [reflexivity|].
  split; [reflexivity|]. split; [reflexivity|]. split; [reflexivity|].
  split; [exact Hin|].
  exact (f_equal (map prometheus.metricValue)
           (Collect_status_line "apcupsd"
              (fixedSource (inl (Some (exampleStatus "ONLINE LOWBATT")))) 0%nat 1%nat
              (exampleStatus "ONLINE LOWBATT")
              [false; false; false; true; false; false; true;
               false; false; false; false; false; false] "LOWBATT"
              eq_refl eq_refl eq_refl eq_refl eq_refl Hin)).
Defined.

(** X9.  Indicators are monotone in the status string: when the status
    string of one snapshot occurs inside that of another whose label
    values are valid UTF-8, every indicator that is 1 for the first is 1
    for the second.  Text around a status string never clears an
    indicator. *)
Theorem indicators_monotone {S1 S2} (ns : string)
    (st1 : StatusSource S1) (st2 : StatusSource S2)
    (src1 src1' : S1) (src2 src2' : S2) (s1 s2 : apcupsd.Status) (tok : string) :
  StatusSource_Status st1 src1 = (inl (Some s1), src1') ->
  StatusSource_Status st2 src2 = (inl (Some s2), src2') ->
  labelsValid s2 = true ->
  In tok upsStatus ->
  strings.Substring (apcupsd.Status_ s1) (apcupsd.Status_ s2) ->
  map prometheus.metricValue
    (indicatorsOf (Status (NewUPSCollector ns st1)) tok
       (emitted (NewUPSCollector ns st1) src1)) = [Some (Float64.of_int 1)] ->
  map prometheus.metricValue
    (indicatorsOf (Status (NewUPSCollector ns st2)) tok
       (emitted (NewUPSCollector ns st2) src2)) = [Some (Float64.of_int 1)].
Proof.
  intros H1 H2 Hl2 Htok Hsub.
  destruct (namespaceValid ns && labelsValid s1) eqn:V.
  - apply andb_true_iff in V. destruct V as [Hns Hl1].
    rewrite (indicatorsOf_token ns st1 src1 src1' s1 tok Hns Hl1 H1 Htok).
    rewrite (indicatorsOf_token ns st2 src2 src2' s2 tok Hns Hl2 H2 Htok).
    cbn [map prometheus.metricValue].
    destruct (strings.Contains (apcupsd.Status_ s1) tok) eqn:E1.
    + intros _. apply Contains_iff in E1.
      assert (E2 : strings.Contains (apcupsd.Status_ s2) tok = true)
        by (apply Contains_iff; eapply Substring_trans; eauto).
      now rewrite E2.
    + intros E. exfalso. injection E as E. discriminate E.
  - rewrite (emitted_rejected ns st1 src1 src1' s1 H1 V).
    intros E. discriminate E.
Qed.

Lemma indicators_monotone_witness :
  StatusSource_Status (fixedSource (inl (Some (exampleStatus "ONBATT")))) 0%nat
  = (inl (Some (exampleStatus "ONBATT")), 1%nat)
  /\ StatusSource_Status
       (fixedSource (inl (Some (exampleStatus " ONBATT LOWBATT ")))) 0%nat
     = (inl (Some (exampleStatus " ONBATT LOWBATT ")), 1%nat)
  /\ labelsValid (exampleStatus " ONBATT LOWBATT ") = true
  /\ map prometheus.metricValue
       (indicatorsOf (Status (exampleCollector " ONBATT LOWBATT ")) "ONBATT"
          (emitted (exampleCollector " ONBATT LOWBATT ") 0%nat))
     = [Some (Float64.of_int 1)].
Proof.
  assert (Hin : In "ONBATT" upsStatus) by (simpl; tauto).
  assert (Hsub : strings.Substring
                   (apcupsd.Status_ (exampleStatus "ONBATT"))
                   (apcupsd.Status_ (exampleStatus " ONBATT LOWBATT ")))
    by (exists " ", " LOWBATT "; reflexivity).
  split; [reflexivity|]. split; [reflexivity|]. split; [reflexivity|].
  refine (indicators_monotone "apcupsd"
            (fixedSource (inl (Some (exampleStatus "ONBATT"))))
            (fixedSource (inl (Some (exampleStatus " ONBATT LOWBATT "))))
            0%nat 1%nat 0%nat 1%nat
            (exampleStatus "ONBATT") (exampleStatus " ONBATT LOWBATT ")
            "ONBATT" eq_refl eq_refl eq_refl Hin Hsub _).
  vm_compute. reflexivity.
Defined.

(** X10.  Within 2^53 seconds of the epoch, [timestamp] yields the value 0
    for exactly two kinds of time: the zero time, and a time whose Unix
    seconds are 0.  A reader of the metric cannot tell an unset timestamp
    from the first second of 1970. *)
Theorem timestamp_zero_iff (t : time.Time) :
  - 2 ^ 53 <= time.Unix t <= 2 ^ 53 ->
  (Float64.to_int (timestamp t) = Some 0
   <-> time.IsZero t = true \/ time.Unix t = 0).
Proof.
  intros Ht. unfold timestamp. destruct (time.IsZero t) eqn:E.
  - split; [now left | reflexivity].
  - rewrite (of_int_exact _ Ht). split.
    + intros E0. right. now injection E0.
    + intros [E0|E0]; [discriminate | now rewrite E0].
Qed.

Lemma timestamp_zero_iff_witness :
  - 2 ^ 53 <= time.Unix (time.unixTime 0 999) <= 2 ^ 53
  /\ Float64.to_int (timestamp (time.unixTime 0 999)) = Some 0.
Proof.
  assert (B : - 2 ^ 53 <= time.Unix (time.unixTime 0 999) <= 2 ^ 53)
    by (vm_compute; split; discriminate).
  split; [exact B|].
  apply (proj2 (timestamp_zero_iff (time.unixTime 0 999) B)).
  right. reflexivity.
Defined.

(** X11.  For a time built as Go's [time.Unix(sec, nsec)] does, with the
    nanoseconds in range, [Unix] gives [sec] back and [timestamp] emits the
    conversion of [sec] alone: the nanoseconds never reach the metric.  The
    one exception is second -62135596800 with no nanoseconds, the zero
    time, which is emitted as 0. *)
Theorem timestamp_of_unixTime (sec nsec : Z) :
  - 2 ^ 63 <= sec < 2 ^ 63 ->
  0 <= nsec < 1000000000 ->
  time.Unix (time.unixTime sec nsec) = sec
  /\ time.IsZero (time.unixTime sec nsec)
     = (sec =? -62135596800) && (nsec =? 0)
  /\ timestamp (time.unixTime sec nsec)
     = if (sec =? -62135596800) && (nsec =? 0)
       then Float64.of_int 0 else Float64.of_int sec.
Proof.
  intros Hs Hn.
  assert (W : time.wall (time.unixTime sec nsec) = nsec).
  { unfold time.unixTime, time.wrap_uint64. cbn [time.wall].
    apply Z.mod_small. lia. }
  assert (M : Z.land nsec time.hasMonotonic = 0).
  { change time.hasMonotonic with (2 ^ 63). apply land_small; lia. }
  assert (N : time.nsec (time.unixTime sec nsec) = nsec).
  { unfold time.nsec. rewrite W. change time.nsecMask with (2 ^ 30 - 1).
    rewrite (proj2 (land_small nsec 30 ltac:(lia) ltac:(lia))).
    unfold time.wrap_int32.
    change (2 ^ 31) with 2147483648. change (2 ^ 32) with 4294967296.
    Z.div_mod_to_equations. lia. }
  assert (X : time.sec (time.unixTime sec nsec)
              = time.wrap_int64 (sec + time.unixToInternal)).
  { unfold time.sec. rewrite W, M. reflexivity. }
  assert (U : time.Unix (time.unixTime sec nsec) = sec).
  { unfold time.Unix, time.unixSec. rewrite X. unfold time.wrap_int64.
    change time.internalToUnix with (-62135596800).
    change time.unixToInternal with 62135596800.
    change (2 ^ 63) with 9223372036854775808 in *.
    change (2 ^ 64) with 18446744073709551616.
    Z.div_mod_to_equations. lia. }
  assert (Z0 : time.IsZero (time.unixTime sec nsec)
               = (sec =? -62135596800) && (nsec =? 0)).
  { unfold time.IsZero. rewrite X, N. f_equal.
    unfold time.wrap_int64.
    change time.unixToInternal with 62135596800.
    change (2 ^ 63) with 9223372036854775808 in *.
    change (2 ^ 64) with 18446744073709551616.
    destruct (Z.eqb_spec sec (-62135596800)) as [->|Ne].
    - reflexivity.
    - apply Z.eqb_neq. Z.div_mod_to_equations. lia. }
  split; [exact U|]. split; [exact Z0|].
  unfold timestamp. rewrite Z0, U. reflexivity.
Qed.

Lemma timestamp_of_unixTime_witness :
  (- 2 ^ 63 <= 1700000002 < 2 ^ 63)
  /\ (0 <= 500000000 < 1000000000)
  /\ timestamp (time.unixTime 1700000002 500000000)
     = Float64.of_int 1700000002.
Proof.
  assert (B1 : - 2 ^ 63 <= 1700000002 < 2 ^ 63) by lia.
  assert (B2 : 0 <= 500000000 < 1000000000) by lia.
  split; [exact B1|]. split; [exact B2|].
  exact (proj2 (proj2 (timestamp_of_unixTime 1700000002 500000000 B1 B2))).
Defined.
